(** * guacamole: mirt/generate_predictions.py

    A shallow embedding of the held-out evaluation driver of the MIRT
    model (parse_line, write_roc_datapoint, load_and_simulate_assessment)
    and the properties of its specification.

    Conventions.
    - Python raising an exception is the [Raise] branch of [Result].
    - The code's effects (the output file, the random source, the calls
      made to the prediction engine) live in an explicit [World] that is
      threaded through a small state-and-error monad.
    - The collaborators whose source is not part of the module
      (FieldIndexer, ItemResponse, MIRTEngine) are records and an
      interface class. *)

From Stdlib Require Import List String Ascii ZArith Lia Bool Arith Sorted.
From Stdlib Require Import Permutation.
Import ListNotations.

(** ** Python primitives *)

Module Py.

(** The only exception the module can raise by itself. *)
Inductive Exn : Type := IndexError.

Inductive Result (A : Type) : Type :=
| Ok (a : A)
| Raise (e : Exn).
Arguments Ok {A} a.
Arguments Raise {A} e.

(** The values that meet in the membership test of parse_line: the
    fields of a line are [str], the tuple it is compared with holds
    two [str] and one [int]. *)
Inductive Val : Type :=
| Str (s : string)
| Int (z : Z).

(** Python [==]: a [str] never equals an [int]. *)
Definition eqb (a b : Val) : bool :=
  match a, b with
  | Str s, Str t => String.eqb s t
  | Int x, Int y => Z.eqb x y
  | _, _ => false
  end.

(** [x in (v1, ..., vn)]. *)
Definition contains (x : Val) (tuple : list Val) : bool :=
  existsb (eqb x) tuple.

(** [l[i]] for a Python [int] index: a negative index counts from the
    end, an index outside [-len, len) raises IndexError. *)
Definition getitem {A : Type} (l : list A) (i : Z) : Result A :=
  let n := Z.of_nat (List.length l) in
  let j := if (i <? 0)%Z then (i + n)%Z else i in
  if ((0 <=? j) && (j <? n))%Z then
    match nth_error l (Z.to_nat j) with
    | Some x => Ok x
    | None => Raise IndexError
    end
  else Raise IndexError.

(** [l.pop(i)] for an index that is not negative: the element and the
    list without it, IndexError when [i] is out of range. *)
Fixpoint pop {A : Type} (l : list A) (i : nat) : Result (A * list A) :=
  match l, i with
  | [], _ => Raise IndexError
  | x :: t, O => Ok (x, t)
  | x :: t, S j =>
      match pop t j with
      | Ok (y, t') => Ok (y, x :: t')
      | Raise e => Raise e
      end
  end.

(** Characters removed by [str.strip()]: the six of Python 2's
    string.whitespace, which every version of Python strips (Python 3
    strips some further code points from a [str]). *)
Definition is_space (c : ascii) : bool :=
  let n := nat_of_ascii c in
  (n =? 32) || (n =? 9) || (n =? 10) || (n =? 13) || (n =? 11) || (n =? 12).

Fixpoint lstrip (s : list ascii) : list ascii :=
  match s with
  | [] => []
  | c :: t => if is_space c then lstrip t else s
  end.

Definition strip (s : string) : string :=
  string_of_list_ascii
    (rev (lstrip (rev (lstrip (list_ascii_of_string s))))).

(** [s.split(',')]: never empty, the empty string gives ['']. *)
Fixpoint split_comma (s : string) : list string :=
  match s with
  | EmptyString => [EmptyString]
  | String c t =>
      if Ascii.eqb c ","%char then EmptyString :: split_comma t
      else match split_comma t with
           | [] => [String c EmptyString]
           | f :: fs => String c f :: fs
           end
  end.

End Py.

Import Py.

(** ** Collaborators *)

(** train_util.model_training_util.FieldIndexer: the positions of the
    fields of a line for one data format. *)
Module FieldIndexer.
Record t : Type := {
  user : Z;
  exercise : Z;
  time_taken : Z;
  correct : Z
}.
End FieldIndexer.

(** mirt.engine.ItemResponse: [data] is the dictionary that is appended
    to the history, with the three keys it is built from. *)
Module ItemResponse.
Record data : Type := {
  correct : bool;
  exercise : string;
  time_taken : string
}.
Definition new (correct : bool) (exercise time_taken : string) : data :=
  {| correct := correct; exercise := exercise; time_taken := time_taken |}.
End ItemResponse.

(** mirt.mirt_engine: the parameters loaded from the json file, the
    probabilities the engine returns, the value the constructor leaves
    in [only_live_exercises], and the prediction itself, which sees the
    parameters and the flag of the instance it is called on. *)
Class MirtEngineModule : Type := {
  Params : Type;
  Prob : Type;
  default_only_live_exercises : bool;
  predict : Params -> bool -> list ItemResponse.data -> string -> Prob
}.

Section Engine.
Context {lib : MirtEngineModule}.

Record MIRTEngine : Type := {
  engine_params : Params;
  only_live_exercises : bool
}.

(** [mirt.mirt_engine.MIRTEngine(params)] *)
Definition new_MIRTEngine (params : Params) : MIRTEngine :=
  {| engine_params := params;
     only_live_exercises := default_only_live_exercises |}.

(** [model.only_live_exercises = b] *)
Definition set_only_live_exercises (model : MIRTEngine) (b : bool)
    : MIRTEngine :=
  {| engine_params := engine_params model; only_live_exercises := b |}.

(** One call of [model.estimated_exercise_accuracy(history, exercise)]. *)
Record Call : Type := {
  call_model : MIRTEngine;
  call_history : list ItemResponse.data;
  call_exercise : string
}.

(** [[actual, predicted]], one point of the ROC curve. *)
Record Datapoint : Type := {
  actual : Z;
  predicted : Prob
}.

(** ** Effects *)

(** [outfile]: the lines of the file at roc_filepath.
    [random_tape]: the indexes the random source will draw, the next
    one at 0 (reduced modulo the length of the sequence chosen from).
    [engine_calls]: the calls made to the engine so far. *)
Record World : Type := {
  outfile : list string;
  random_tape : nat -> nat;
  engine_calls : list Call
}.

Definition M (A : Type) : Type := World -> Result (A * World).

Definition ret {A : Type} (a : A) : M A := fun w => Ok (a, w).

Definition bind {A B : Type} (m : M A) (k : A -> M B) : M B :=
  fun w =>
    match m w with
    | Ok (a, w') => k a w'
    | Raise e => Raise e
    end.

Definition lift {A : Type} (r : Result A) : M A :=
  fun w =>
    match r with
    | Ok a => Ok (a, w)
    | Raise e => Raise e
    end.

End Engine.

Declare Scope py_scope.
Delimit Scope py_scope with py.
Notation "x <- m ;; k" := (bind m (fun x => k))
  (at level 61, m at next level, right associativity) : py_scope.
Notation "' pat <- m ;; k" := (bind m (fun x => match x with pat => k end))
  (at level 61, pat pattern, m at next level, right associativity) : py_scope.

Section Program.
Context {lib : MirtEngineModule}.
Open Scope py_scope.

(** [open(roc_filepath, 'w')] truncates the file. *)
Definition open_w : M unit :=
  fun w => Ok (tt, {| outfile := [];
                      random_tape := random_tape w;
                      engine_calls := engine_calls w |}).

(** [random.choice(seq)]: [seq[k]] for the index [k] drawn; on an
    empty sequence the lookup raises IndexError. *)
Definition random_choice {A : Type} (seq : list A) : M A :=
  fun w =>
    match nth_error seq (random_tape w 0 mod List.length seq) with
    | Some x =>
        Ok (x, {| outfile := outfile w;
                  random_tape := fun k => random_tape w (S k);
                  engine_calls := engine_calls w |})
    | None => Raise IndexError
    end.

Definition estimated_exercise_accuracy (model : MIRTEngine)
    (history : list ItemResponse.data) (exercise : string) : M Prob :=
  fun w =>
    Ok (predict (engine_params model) (only_live_exercises model)
          history exercise,
        {| outfile := outfile w;
           random_tape := random_tape w;
           engine_calls :=
             engine_calls w
             ++ [{| call_model := model; call_history := history;
                    call_exercise := exercise |}] |}).

(** ** parse_line *)

Record Parsed : Type := {
  p_user : string;
  p_ex : string;
  p_time : string;
  p_correct : bool;
  p_is_evaluation : bool
}.

(** [field in ('true', 'True', 1)] *)
Definition in_true_True_1 (field : string) : bool :=
  contains (Str field) [Str "true"; Str "True"; Int 1].

(** [field in ('true', 'True')] *)
Definition in_true_True (field : string) : bool :=
  contains (Str field) [Str "true"; Str "True"].

Definition parse_line (line : string) (indexer : FieldIndexer.t)
    (evaluation_item_index : option Z) : Result Parsed :=
  let line := split_comma (strip line) in
  match getitem line (FieldIndexer.user indexer) with
  | Raise e => Raise e
  | Ok user =>
  match getitem line (FieldIndexer.exercise indexer) with
  | Raise e => Raise e
  | Ok ex =>
  match getitem line (FieldIndexer.time_taken indexer) with
  | Raise e => Raise e
  | Ok time =>
  match getitem line (FieldIndexer.correct indexer) with
  | Raise e => Raise e
  | Ok c =>
      let correct := in_true_True_1 c in
      match evaluation_item_index with
      | Some k =>
          match getitem line k with
          | Raise e => Raise e
          | Ok f =>
              Ok {| p_user := user; p_ex := ex; p_time := time;
                    p_correct := correct;
                    p_is_evaluation := in_true_True f |}
          end
      | None =>
          Ok {| p_user := user; p_ex := ex; p_time := time;
                p_correct := correct; p_is_evaluation := false |}
      end
  end end end end.

(** ** write_roc_datapoint *)

(** The first loop: pop every evaluation index in turn and collect
    the popped items. *)
Fixpoint pop_evaluation_items {A : Type} (history : list A)
    (evaluation_indexes : list nat) (evaluation_items : list A)
    : Result (list A * list A) :=
  match evaluation_indexes with
  | [] => Ok (evaluation_items, history)
  | evaluation_item_index :: rest =>
      match pop history evaluation_item_index with
      | Ok (item, history') =>
          pop_evaluation_items history' rest (evaluation_items ++ [item])
      | Raise e => Raise e
      end
  end.

(** The second loop: one prediction and one point per collected item. *)
Fixpoint predict_evaluation_items (model : MIRTEngine)
    (history : list ItemResponse.data)
    (evaluation_items : list ItemResponse.data)
    (roc_points : list Datapoint) : M (list Datapoint) :=
  match evaluation_items with
  | [] => ret roc_points
  | evaluation_item :: rest =>
      acc <- estimated_exercise_accuracy model history
               (ItemResponse.exercise evaluation_item) ;;
      let roc_point :=
        {| actual := if ItemResponse.correct evaluation_item then 1 else 0;
           predicted := acc |} in
      predict_evaluation_items model history rest
        (roc_points ++ [roc_point])
  end.

(** The indexes that are popped: the reversed list, or one random
    index of the history when there is none. *)
Definition held_out_indexes (history : list ItemResponse.data)
    (evaluation_indexes : list nat) : M (list nat) :=
  let evaluation_indexes := rev evaluation_indexes in
  match evaluation_indexes with
  | [] =>
      i <- random_choice (seq 0 (List.length history)) ;;
      ret [i]
  | _ :: _ => ret evaluation_indexes
  end.

(** The open file is the [outfile] of the world; the body never
    writes to it. *)
Definition write_roc_datapoint (history : list ItemResponse.data)
    (evaluation_indexes : list nat) (model : MIRTEngine)
    : M (list Datapoint) :=
  evaluation_indexes <- held_out_indexes history evaluation_indexes ;;
  popped <- lift (pop_evaluation_items history evaluation_indexes []) ;;
  let evaluation_items := fst popped in
  let history := snd popped in
  predict_evaluation_items model history evaluation_items [].

(** ** load_and_simulate_assessment *)

(** The local variables of the loop over the lines. *)
Record Frame : Type := {
  user : string;
  model : MIRTEngine;
  history : list ItemResponse.data;
  evaluation_indexes : list nat;
  datapoints : list Datapoint
}.

(** Python truth of a [str]. *)
Definition truthy (s : string) : bool :=
  match s with
  | EmptyString => false
  | String _ _ => true
  end.

(** The body of [for line in test_data]. *)
Definition loop_body (params : Params) (indexer : FieldIndexer.t)
    (evaluation_item_index : option Z) (f : Frame) (line : string)
    : M Frame :=
  p <- lift (parse_line line indexer evaluation_item_index) ;;
  f <- (if negb (String.eqb (user f) (p_user p)) then
          extended <-
            (if truthy (user f) then
               roc_points <- write_roc_datapoint (history f)
                               (evaluation_indexes f) (model f) ;;
               ret (datapoints f ++ roc_points)
             else ret (datapoints f)) ;;
          ret {| user := p_user p;
                 model := new_MIRTEngine params;
                 history := [];
                 evaluation_indexes := [];
                 datapoints := extended |}
        else ret f) ;;
  let response :=
    ItemResponse.new (p_correct p) (p_ex p) (p_time p) in
  let history := history f ++ [response] in
  let evaluation_indexes :=
    if p_is_evaluation p
    then evaluation_indexes f ++ [List.length history - 1]
    else evaluation_indexes f in
  ret {| user := user f;
         model := model f;
         history := history;
         evaluation_indexes := evaluation_indexes;
         datapoints := datapoints f |}.

Fixpoint loop (params : Params) (indexer : FieldIndexer.t)
    (evaluation_item_index : option Z) (test_data : list string)
    (f : Frame) : M Frame :=
  match test_data with
  | [] => ret f
  | line :: rest =>
      f <- loop_body params indexer evaluation_item_index f line ;;
      loop params indexer evaluation_item_index rest f
  end.

(** The variables as they are before the first line is read. *)
Definition initial_frame (params : Params) : Frame :=
  {| user := EmptyString;
     model := set_only_live_exercises (new_MIRTEngine params) false;
     history := [];
     evaluation_indexes := [];
     datapoints := [] |}.

(** [params] stands for the loaded json file, [indexer] for
    [FieldIndexer.get_for_slug(data_format)], [test_data] for the
    lines of the file at test_filepath. *)
Definition load_and_simulate_assessment (params : Params)
    (indexer : FieldIndexer.t) (test_data : list string)
    (evaluation_item_index : option Z) : M (list Datapoint) :=
  _ <- open_w ;;
  f <- loop params indexer evaluation_item_index test_data
         (initial_frame params) ;;
  ret (datapoints f).

End Program.

(** ** Vocabulary of the specification *)

(** The records of a history with their original positions. *)
Definition indexed {A : Type} (k : nat) (h : list A) : list (nat * A) :=
  combine (seq k (List.length h)) h.

Definition held_out (E : list nat) (i : nat) : bool :=
  existsb (Nat.eqb i) E.

(** The records, numbered from [k], whose position is not in [E]. *)
Definition kept_indexed {A : Type} (k : nat) (E : list nat) (h : list A)
    : list (nat * A) :=
  filter (fun p => negb (held_out E (fst p))) (indexed k h).

(** The history minus the positions in [E]. *)
Definition without_positions {A : Type} (E : list nat) (h : list A)
    : list A :=
  map snd (kept_indexed 0 E h).

(** The records an immutable copy holds at the positions [l], in the
    order of [l]. *)
Definition items_at {A : Type} (copy : list A) (l : list nat) : list A :=
  flat_map (fun i => match nth_error copy i with
                     | Some x => [x]
                     | None => []
                     end) l.

(** Strictly increasing indexes, all of them positions of [h]. *)
Definition indexes_valid {A : Type} (h : list A) (E : list nat) : Prop :=
  StronglySorted lt E /\ Forall (fun i => i < List.length h) E.

(** The number of fields a line needs for [line[i]] to exist. *)
Definition fields_required (i : Z) : Z :=
  if (i <? 0)%Z then (- i)%Z else (i + 1)%Z.

(** The positions parse_line reads. *)
Definition configured_indexes (indexer : FieldIndexer.t)
    (evaluation_item_index : option Z) : list Z :=
  [FieldIndexer.user indexer; FieldIndexer.exercise indexer;
   FieldIndexer.time_taken indexer; FieldIndexer.correct indexer]
  ++ match evaluation_item_index with
     | Some k => [k]
     | None => []
     end.

(** The point and the logged call that one held-out item gives when the
    engine is asked with the history [h]. *)
Definition point_of {lib : MirtEngineModule} (model : MIRTEngine)
    (h : list ItemResponse.data) (item : ItemResponse.data) : Datapoint :=
  {| actual := if ItemResponse.correct item then 1 else 0;
     predicted := predict (engine_params model) (only_live_exercises model)
                    h (ItemResponse.exercise item) |}.

Definition call_of {lib : MirtEngineModule} (model : MIRTEngine)
    (h : list ItemResponse.data) (item : ItemResponse.data) : Call :=
  {| call_model := model; call_history := h;
     call_exercise := ItemResponse.exercise item |}.

(** The world after one draw from the random source. *)
Definition drawn {lib : MirtEngineModule} (w : World) : World :=
  {| outfile := outfile w;
     random_tape := fun k => random_tape w (S k);
     engine_calls := engine_calls w |}.

(** The world after further calls to the engine. *)
Definition called {lib : MirtEngineModule} (w : World) (calls : list Call)
    : World :=
  {| outfile := outfile w;
     random_tape := random_tape w;
     engine_calls := engine_calls w ++ calls |}.

(** The frame after the boundary code of the loop body has reset it for
    the user of [p], with [dps] as the datapoints so far. *)
Definition restarted {lib : MirtEngineModule} (params : Params) (p : Parsed)
    (dps : list Datapoint) : Frame :=
  {| user := p_user p;
     model := new_MIRTEngine params;
     history := [];
     evaluation_indexes := [];
     datapoints := dps |}.

(** The frame after the response of [p] has been appended. *)
Definition appended {lib : MirtEngineModule} (p : Parsed) (f : Frame)
    : Frame :=
  let response := ItemResponse.new (p_correct p) (p_ex p) (p_time p) in
  {| user := user f;
     model := model f;
     history := history f ++ [response];
     evaluation_indexes :=
       if p_is_evaluation p
       then evaluation_indexes f
            ++ [List.length (history f ++ [response]) - 1]
       else evaluation_indexes f;
     datapoints := datapoints f |}.

(** What holds of the variables of the loop at every line: the indexes
    are valid for the history, and once a user is set the model is the
    one built at that user's boundary and the history has a record. *)
Definition frame_ok {lib : MirtEngineModule} (params : Params) (f : Frame)
    : Prop :=
  indexes_valid (history f) (evaluation_indexes f)
  /\ (truthy (user f) = true ->
      model f = new_MIRTEngine params /\ history f <> []).

(** The three lines of the specification's scenario A. *)
Definition scenario_A : list string :=
  ["u1,e1,5,true,false"; "u1,e2,3,false,true"; "u2,e1,4,true,false"]%string.

(** ** A concrete engine for the examples *)

(** Parameters without content, the length of the history it is given
    as prediction, and a constructor that leaves the flag on. *)
Definition counting_engine : MirtEngineModule :=
  {| Params := unit;
     Prob := nat;
     default_only_live_exercises := true;
     predict := fun _ _ history _ => List.length history |}.

Definition counting_params : @Params counting_engine := tt.

Definition counting_model : @MIRTEngine counting_engine :=
  new_MIRTEngine counting_params.

(** A world whose random source always draws 0. *)
Definition fresh_world {lib : MirtEngineModule} : World :=
  {| outfile := []; random_tape := fun _ => 0; engine_calls := [] |}.

(** The field positions of the specification's scenarios
    (user, exercise, time, correct, and an evaluation flag at 4). *)
Definition scenario_indexer : FieldIndexer.t :=
  {| FieldIndexer.user := 0; FieldIndexer.exercise := 1;
     FieldIndexer.time_taken := 2; FieldIndexer.correct := 3 |}.



(** ** Vocabulary of the further properties *)

(** A string of whitespace only. *)
Definition all_space (s : string) : bool :=
  forallb is_space (list_ascii_of_string s).

(** The number of commas of a string. *)
Fixpoint count_commas (s : string) : nat :=
  match s with
  | EmptyString => 0
  | String c t =>
      if Ascii.eqb c ","%char then S (count_commas t) else count_commas t
  end.

(** The world as [open(roc_filepath, 'w')] leaves it. *)
Definition opened {lib : MirtEngineModule} (w : World) : World :=
  {| outfile := [];
     random_tape := random_tape w;
     engine_calls := engine_calls w |}.

(** The point [pt] is the engine's answer to the call [c]. *)
Definition answers {lib : MirtEngineModule} (pt : Datapoint) (c : Call)
    : Prop :=
  predicted pt
  = predict (engine_params (call_model c))
      (only_live_exercises (call_model c))
      (call_history c) (call_exercise c).

(** ** Lists: pop and positions *)

Section PopFacts.
Context {A : Type}.
Implicit Types (h : list A) (E D : list nat).

Lemma pop_in_range h i :
  i < List.length h ->
  exists x h', pop h i = Ok (x, h') /\ nth_error h i = Some x
               /\ S (List.length h') = List.length h.
Proof.
  revert i; induction h as [|y t IH]; intros i Hi; simpl in *; [lia|].
  destruct i as [|j].
  - exists y, t; auto.
  - destruct (IH j) as (x & t' & Hp & Hn & Hl); [lia|].
    exists x, (y :: t'); rewrite Hp; simpl; auto.
Qed.

Lemma pop_out_of_range h i :
  List.length h <= i -> pop h i = Raise IndexError.
Proof.
  revert i; induction h as [|y t IH]; intros i Hi; simpl in *; [reflexivity|].
  destruct i as [|j]; [lia|].
  rewrite IH by lia; reflexivity.
Qed.

(** Popping at [d] leaves the positions below [d] where they were. *)
Lemma pop_below h d x h' i :
  pop h d = Ok (x, h') -> i < d -> nth_error h' i = nth_error h i.
Proof.
  revert d h' i; induction h as [|y t IH]; intros d h' i Hp Hi;
    simpl in Hp; [discriminate|].
  destruct d as [|d]; [lia|].
  destruct (pop t d) as [[z t']|e] eqn:Ht; [|discriminate].
  injection Hp as <- <-.
  destruct i as [|i]; simpl; [reflexivity|].
  eapply IH; eauto; lia.
Qed.

Lemma held_out_cons_other E i j :
  i <> j -> held_out (j :: E) i = held_out E i.
Proof.
  intros Hne; unfold held_out; simpl.
  destruct (Nat.eqb_spec i j); [contradiction|reflexivity].
Qed.

Lemma held_out_true_iff E i : held_out E i = true <-> In i E.
Proof.
  unfold held_out; rewrite existsb_exists; split.
  - intros (x & Hx & He); apply Nat.eqb_eq in He; subst; assumption.
  - intros Hi; exists i; split; [assumption|apply Nat.eqb_refl].
Qed.

Lemma held_out_rev E i : held_out (rev E) i = held_out E i.
Proof.
  apply eq_true_iff_eq; rewrite !held_out_true_iff; symmetry; apply in_rev.
Qed.

Lemma kept_indexed_cons k E x h :
  kept_indexed k E (x :: h)
  = if held_out E k then kept_indexed (S k) E h
    else (k, x) :: kept_indexed (S k) E h.
Proof.
  unfold kept_indexed, indexed; simpl.
  destruct (held_out E k); reflexivity.
Qed.

(** Indexes below the numbering remove nothing. *)
Lemma kept_indexed_all k E h :
  (forall e, In e E -> e < k) ->
  map snd (kept_indexed k E h) = h.
Proof.
  revert k; induction h as [|x t IH]; intros k Hlt; [reflexivity|].
  rewrite kept_indexed_cons.
  destruct (held_out E k) eqn:Hk.
  - apply held_out_true_iff, Hlt in Hk; lia.
  - simpl; f_equal; apply IH; intros e He; specialize (Hlt e He); lia.
Qed.

(** One pop at [d] is the removal of position [d]; the indexes that
    are still to be popped are smaller and keep their meaning. *)
Lemma pop_kept_indexed h d k x h' E :
  pop h d = Ok (x, h') ->
  (forall e, In e E -> e < k + d) ->
  map snd (kept_indexed k E h') = map snd (kept_indexed k (k + d :: E) h).
Proof.
  revert d k h'; induction h as [|y t IH]; intros d k h' Hp Hlt;
    simpl in Hp; [discriminate|].
  destruct d as [|d].
  - injection Hp as <- <-.
    rewrite Nat.add_0_r in *.
    rewrite kept_indexed_cons.
    replace (held_out (k :: E) k) with true
      by (symmetry; apply held_out_true_iff; left; reflexivity).
    rewrite !kept_indexed_all; try reflexivity.
    + intros e [<-|He]; [lia|]; specialize (Hlt e He); lia.
    + assumption.
  - destruct (pop t d) as [[z t']|e] eqn:Ht; [|discriminate].
    injection Hp as <- <-.
    rewrite !kept_indexed_cons.
    rewrite held_out_cons_other by lia.
    specialize (IH d (S k) t' Ht).
    replace (S k + d) with (k + S d) in IH by lia.
    destruct (held_out E k); simpl; rewrite IH; try reflexivity;
      intros e He; specialize (Hlt e He); lia.
Qed.

Lemma without_positions_rev E h :
  without_positions (rev E) h = without_positions E h.
Proof.
  unfold without_positions, kept_indexed; f_equal.
  apply filter_ext; intros p; rewrite held_out_rev; reflexivity.
Qed.

Lemma items_at_below h d x h' D :
  pop h d = Ok (x, h') -> Forall (fun i => i < d) D ->
  items_at h' D = items_at h D.
Proof.
  intros Hp HD; induction HD as [|i D Hi _ IH]; [reflexivity|].
  unfold items_at in *; simpl.
  rewrite (pop_below _ _ _ _ _ Hp Hi), IH; reflexivity.
Qed.

(** The first loop of write_roc_datapoint on strictly decreasing
    indexes. *)
Lemma pop_evaluation_items_descending D : forall h acc,
  StronglySorted gt D -> Forall (fun i => i < List.length h) D ->
  pop_evaluation_items h D acc
  = Ok (acc ++ items_at h D, without_positions D h).
Proof.
  induction D as [|d D IH]; intros h acc Hs Hr; simpl.
  - unfold items_at; simpl; rewrite app_nil_r.
    unfold without_positions; rewrite kept_indexed_all; [reflexivity|].
    intros e [].
  - inversion Hs as [|? ? Hs' Hd]; subst.
    inversion Hr as [|? ? Hdr Hr']; subst.
    destruct (pop_in_range h d Hdr) as (x & h' & Hp & Hn & Hl).
    rewrite Hp.
    assert (Hlt : Forall (fun i => i < d) D).
    { eapply Forall_impl; [|exact Hd]; simpl; intros; lia. }
    rewrite IH; trivial.
    + rewrite (items_at_below _ _ _ _ _ Hp Hlt).
      unfold items_at at 2; simpl; rewrite Hn; fold (items_at h D).
      rewrite <- app_assoc; simpl.
      unfold without_positions.
      rewrite (pop_kept_indexed _ _ 0 _ _ D Hp); [reflexivity|].
      intros e He; rewrite Forall_forall in Hlt; exact (Hlt e He).
    + rewrite Forall_forall in *; intros e He.
      specialize (Hlt e He); lia.
Qed.

Lemma StronglySorted_snoc (R : nat -> nat -> Prop) E a :
  StronglySorted R E -> Forall (fun y => R y a) E ->
  StronglySorted R (E ++ [a]).
Proof.
  induction 1 as [|b l Hs IH Hb]; intros Ha; simpl.
  - repeat constructor.
  - inversion Ha; subst; constructor; [auto|].
    apply Forall_app; split; [assumption|]; repeat constructor; assumption.
Qed.

Lemma StronglySorted_rev_lt E :
  StronglySorted lt E -> StronglySorted gt (rev E).
Proof.
  induction 1 as [|a l Hs IH Ha]; simpl; [constructor|].
  apply StronglySorted_snoc; [assumption|].
  apply Forall_rev; exact Ha.
Qed.

(** The items are not lost: position by position they are the ones
    of the copy. *)
Lemma items_at_nth_error h l :
  Forall (fun i => i < List.length h) l ->
  map Some (items_at h l) = map (nth_error h) l.
Proof.
  induction 1 as [|i l Hi _ IH]; [reflexivity|].
  unfold items_at in *; simpl.
  destruct (nth_error h i) eqn:Hn.
  - simpl; rewrite IH; reflexivity.
  - apply nth_error_None in Hn; lia.
Qed.

End PopFacts.

(** C7 (removal-order stability).  For a history [h] and indexes
    [E = i1 < ... < ik], all of them positions of [h], popping the
    indexes in descending order succeeds, collects exactly the records
    that an untouched copy of [h] holds at [ik, ..., i1] (highest
    position first, none missing), and leaves [h] minus the positions
    of [E]. *)
Theorem removal_order_stability (A : Type) (h : list A) (E : list nat) :
  StronglySorted lt E ->
  (forall i, In i E -> i < List.length h) ->
  pop_evaluation_items h (rev E) []
  = Ok (items_at h (rev E), without_positions E h)
  /\ map Some (items_at h (rev E)) = map (nth_error h) (rev E)
  /\ List.length (items_at h (rev E)) = List.length E.
Proof.
  intros Hs Hr.
  assert (Hf : Forall (fun i => i < List.length h) (rev E)).
  { apply Forall_rev, Forall_forall; exact Hr. }
  pose proof (items_at_nth_error h (rev E) Hf) as Hn.
  split; [|split; [exact Hn|]].
  - rewrite (pop_evaluation_items_descending (rev E) h []
               (StronglySorted_rev_lt E Hs) Hf).
    rewrite without_positions_rev; reflexivity.
  - apply (f_equal (@List.length _)) in Hn.
    rewrite !length_map, length_rev in Hn; exact Hn.
Qed.

Lemma removal_order_stability_witness :
  pop_evaluation_items ["a"; "b"; "c"; "d"; "e"]%string (rev [1; 3; 4]) []
  = Ok (["e"; "d"; "b"]%string, ["a"; "c"]%string).
Proof.
  refine (proj1 (removal_order_stability string
                   ["a"; "b"; "c"; "d"; "e"]%string [1; 3; 4] _ _)).
  - repeat constructor.
  - simpl; intros i Hi; intuition lia.
Defined.

(** ** parse_line *)

Section ParseFacts.

Lemma getitem_too_short (A : Type) (l : list A) (i : Z) :
  (Z.of_nat (List.length l) < fields_required i)%Z ->
  getitem l i = Raise IndexError.
Proof.
  unfold getitem, fields_required; intros H.
  destruct (i <? 0)%Z eqn:Hneg.
  - apply Z.ltb_lt in Hneg.
    replace (0 <=? i + Z.of_nat (List.length l))%Z with false;
      [reflexivity|symmetry; apply Z.leb_gt; lia].
  - apply Z.ltb_ge in Hneg.
    replace (i <? Z.of_nat (List.length l))%Z with false;
      [rewrite andb_false_r; reflexivity|symmetry; apply Z.ltb_ge; lia].
Qed.

Lemma getitem_long_enough (A : Type) (l : list A) (i : Z) :
  (fields_required i <= Z.of_nat (List.length l))%Z ->
  exists x, getitem l i = Ok x.
Proof.
  unfold getitem, fields_required; intros H.
  set (n := Z.of_nat (List.length l)) in *.
  set (j := if (i <? 0)%Z then (i + n)%Z else i).
  assert (Hj : (0 <= j < n)%Z).
  { subst j; destruct (i <? 0)%Z eqn:Hneg;
      [apply Z.ltb_lt in Hneg|apply Z.ltb_ge in Hneg]; lia. }
  replace ((0 <=? j)%Z && (j <? n)%Z) with true.
  - destruct (nth_error l (Z.to_nat j)) as [x|] eqn:Hn; [eauto|].
    apply nth_error_None in Hn; subst n; lia.
  - symmetry; apply andb_true_iff; split;
      [apply Z.leb_le|apply Z.ltb_lt]; lia.
Qed.

Lemma in_true_True_1_iff (c : string) :
  in_true_True_1 c = true <-> c = "true"%string \/ c = "True"%string.
Proof.
  unfold in_true_True_1, contains; simpl.
  rewrite orb_false_r, orb_true_iff, !String.eqb_eq; reflexivity.
Qed.

(** What a successful parse_line has read. *)
Lemma parse_line_Ok line indexer evaluation_item_index p :
  parse_line line indexer evaluation_item_index = Ok p ->
  let fields := split_comma (strip line) in
  Forall (fun i => exists x, getitem fields i = Ok x)
    (configured_indexes indexer evaluation_item_index)
  /\ getitem fields (FieldIndexer.user indexer) = Ok (p_user p)
  /\ getitem fields (FieldIndexer.exercise indexer) = Ok (p_ex p)
  /\ getitem fields (FieldIndexer.time_taken indexer) = Ok (p_time p)
  /\ (exists c, getitem fields (FieldIndexer.correct indexer) = Ok c
                /\ p_correct p = in_true_True_1 c)
  /\ match evaluation_item_index with
     | Some k => exists f, getitem fields k = Ok f
                           /\ p_is_evaluation p = in_true_True f
     | None => p_is_evaluation p = false
     end.
Proof.
  unfold parse_line, configured_indexes; cbv zeta.
  destruct (getitem _ (FieldIndexer.user indexer)) as [u|] eqn:Hu;
    [|discriminate].
  destruct (getitem _ (FieldIndexer.exercise indexer)) as [ex|] eqn:Hex;
    [|discriminate].
  destruct (getitem _ (FieldIndexer.time_taken indexer)) as [t|] eqn:Ht;
    [|discriminate].
  destruct (getitem _ (FieldIndexer.correct indexer)) as [c|] eqn:Hc;
    [|discriminate].
  destruct evaluation_item_index as [k|].
  - destruct (getitem _ k) as [f|] eqn:Hf; [|discriminate].
    intros [= <-]; simpl.
    repeat split; eauto 10; repeat (constructor; eauto).
  - intros [= <-]; simpl.
    repeat split; eauto 10; repeat (constructor; eauto).
Qed.

Lemma parse_line_total line indexer evaluation_item_index :
  Forall (fun i => (fields_required i
                    <= Z.of_nat (List.length (split_comma (strip line))))%Z)
    (configured_indexes indexer evaluation_item_index) ->
  exists p, parse_line line indexer evaluation_item_index = Ok p.
Proof.
  unfold configured_indexes; intros H.
  apply Forall_app in H; destruct H as [H He].
  repeat match goal with
         | H : Forall _ (_ :: _) |- _ =>
             let H1 := fresh in let H2 := fresh in
             inversion H as [|? ? H1 H2]; subst; clear H;
             apply getitem_long_enough in H1; destruct H1
         end.
  unfold parse_line; cbv zeta.
  repeat match goal with
         | H : getitem _ _ = Ok _ |- _ => rewrite H; clear H
         end.
  destruct evaluation_item_index as [k|]; eauto.
  inversion He as [|? ? H1 H2]; subst.
  apply getitem_long_enough in H1; destruct H1 as [f Hf].
  rewrite Hf; eauto.
Qed.

End ParseFacts.

(** C9 (malformed line).  When the line has fewer comma-separated
    fields than one of the configured indexes requires, parse_line
    raises (IndexError) and returns no record. *)
Theorem parse_line_too_few_fields (line : string) (indexer : FieldIndexer.t)
    (evaluation_item_index : option Z) (i : Z) :
  In i (configured_indexes indexer evaluation_item_index) ->
  (Z.of_nat (List.length (split_comma (strip line))) < fields_required i)%Z ->
  parse_line line indexer evaluation_item_index = Raise IndexError
  /\ forall p, parse_line line indexer evaluation_item_index <> Ok p.
Proof.
  intros Hi Hshort.
  assert (Hno : forall p,
             parse_line line indexer evaluation_item_index <> Ok p).
  { intros p Hp.
    destruct (parse_line_Ok _ _ _ _ Hp) as (Hall & _).
    rewrite Forall_forall in Hall.
    destruct (Hall i Hi) as [x Hx].
    rewrite (getitem_too_short _ _ _ Hshort) in Hx; discriminate. }
  split; [|exact Hno].
  destruct (parse_line line indexer evaluation_item_index) as [p|[]];
    [exfalso; exact (Hno p eq_refl)|reflexivity].
Qed.

Lemma parse_line_too_few_fields_witness :
  parse_line "u1,e1" scenario_indexer (Some 4%Z) = Raise IndexError.
Proof.
  refine (proj1 (parse_line_too_few_fields "u1,e1" scenario_indexer
                   (Some 4%Z) 3%Z _ _)).
  - simpl; auto.
  - vm_compute; reflexivity.
Defined.

(** ** write_roc_datapoint *)

Section FinalizationFacts.
Context {lib : MirtEngineModule}.
Implicit Types (h : list ItemResponse.data) (E : list nat)
  (model : MIRTEngine) (w : World).

Lemma called_nil w : called w [] = w.
Proof. destruct w; unfold called; simpl; rewrite app_nil_r; reflexivity. Qed.

Lemma called_called w c1 c2 : called (called w c1) c2 = called w (c1 ++ c2).
Proof. unfold called; simpl; rewrite app_assoc; reflexivity. Qed.

(** The second loop never fails: one point and one call per item,
    every call with the same history. *)
Lemma predict_evaluation_items_eq model h items : forall acc w,
  predict_evaluation_items model h items acc w
  = Ok (acc ++ map (point_of model h) items,
        called w (map (call_of model h) items)).
Proof.
  induction items as [|item items IH]; intros acc w; simpl.
  - unfold ret; rewrite app_nil_r, called_nil; reflexivity.
  - unfold bind, estimated_exercise_accuracy.
    rewrite IH, <- app_assoc; simpl.
    fold (call_of model h item).
    change {| outfile := outfile w; random_tape := random_tape w;
              engine_calls := engine_calls w ++ [call_of model h item] |}
      with (called w [call_of model h item]).
    rewrite called_called; reflexivity.
Qed.

Lemma held_out_indexes_flagged h E w :
  E <> [] -> held_out_indexes h E w = Ok (rev E, w).
Proof.
  intros HE; unfold held_out_indexes.
  destruct (rev E) as [|i l] eqn:Hr; [|reflexivity].
  apply (f_equal (@rev nat)) in Hr; rewrite rev_involutive in Hr.
  contradiction.
Qed.

Lemma held_out_indexes_fallback h w :
  h <> [] ->
  held_out_indexes h [] w
  = Ok ([random_tape w 0 mod List.length h], drawn w)
  /\ random_tape w 0 mod List.length h < List.length h.
Proof.
  intros Hh.
  assert (Hlen : List.length h <> 0) by (destruct h; simpl; congruence).
  pose proof (Nat.mod_upper_bound (random_tape w 0) _ Hlen) as Hr.
  split; [|exact Hr].
  unfold held_out_indexes; simpl; unfold bind, random_choice.
  rewrite length_seq.
  set (r := random_tape w 0 mod List.length h) in *.
  assert (Hn : nth_error (seq 0 (List.length h)) r = Some r).
  { rewrite nth_error_nth' with (d := 0) by (rewrite length_seq; exact Hr).
    rewrite seq_nth by exact Hr; reflexivity. }
  rewrite Hn; reflexivity.
Qed.

Lemma held_out_indexes_empty w :
  held_out_indexes [] [] w = Raise IndexError.
Proof.
  unfold held_out_indexes; simpl; unfold bind, random_choice; simpl.
  destruct (random_tape w 0); reflexivity.
Qed.

(** Every result of write_roc_datapoint, taken apart. *)
Lemma write_roc_datapoint_Ok h E model w pts w' :
  write_roc_datapoint h E model w = Ok (pts, w') ->
  exists held w1 items h',
    held_out_indexes h E w = Ok (held, w1)
    /\ (w1 = w \/ w1 = drawn w)
    /\ pop_evaluation_items h held [] = Ok (items, h')
    /\ pts = map (point_of model h') items
    /\ w' = called w1 (map (call_of model h') items).
Proof.
  unfold write_roc_datapoint, bind at 1.
  destruct (held_out_indexes h E w) as [[held w1]|e] eqn:Hh; [|discriminate].
  unfold bind, lift.
  destruct (pop_evaluation_items h held []) as [[items h']|e] eqn:Hp;
    [|discriminate].
  simpl; rewrite predict_evaluation_items_eq; simpl.
  intros [= <- <-].
  exists held, w1, items, h'; repeat split; trivial.
  revert Hh; unfold held_out_indexes.
  destruct (rev E).
  - unfold bind, random_choice.
    destruct (nth_error _ _); [|discriminate].
    unfold ret; intros [= _ <-]; right; reflexivity.
  - unfold ret; intros [= _ <-]; left; reflexivity.
Qed.

(** Finalization, once the indexes to pop are known. *)
Lemma write_roc_datapoint_held h E model w held w1 :
  held_out_indexes h E w = Ok (held, w1) ->
  StronglySorted gt held ->
  Forall (fun i => i < List.length h) held ->
  write_roc_datapoint h E model w
  = Ok (map (point_of model (without_positions held h)) (items_at h held),
        called w1 (map (call_of model (without_positions held h))
                     (items_at h held))).
Proof.
  intros Hheld Hs Hr.
  unfold write_roc_datapoint, bind at 1; rewrite Hheld.
  unfold bind, lift.
  rewrite (pop_evaluation_items_descending held h [] Hs Hr); simpl.
  apply predict_evaluation_items_eq.
Qed.

Lemma items_at_length h l :
  Forall (fun i => i < List.length h) l ->
  List.length (items_at h l) = List.length l.
Proof.
  intros Hl; apply items_at_nth_error in Hl.
  apply (f_equal (@List.length _)) in Hl.
  rewrite !length_map in Hl; exact Hl.
Qed.

(** The two ways a finalization on valid indexes can go: it raises on
    the empty history, or it pops a non-empty, strictly decreasing
    list of positions that contains the flagged ones. *)
Lemma write_roc_datapoint_valid h E model w :
  indexes_valid h E ->
  (h = [] /\ E = [] /\ write_roc_datapoint h E model w = Raise IndexError)
  \/ exists held w1,
       held_out_indexes h E w = Ok (held, w1)
       /\ (E <> [] -> held = rev E /\ w1 = w)
       /\ (E = [] -> held = [random_tape w 0 mod List.length h]
                     /\ w1 = drawn w)
       /\ StronglySorted gt held
       /\ Forall (fun i => i < List.length h) held
       /\ write_roc_datapoint h E model w
          = Ok (map (point_of model (without_positions held h))
                  (items_at h held),
                called w1 (map (call_of model (without_positions held h))
                             (items_at h held))).
Proof.
  intros [Hs Hr].
  destruct E as [|i E].
  - destruct h as [|x t].
    + left; repeat split.
      unfold write_roc_datapoint, bind.
      rewrite held_out_indexes_empty; reflexivity.
    + right.
      assert (Hh : x :: t <> []) by discriminate.
      destruct (held_out_indexes_fallback (x :: t) w Hh) as [Hheld Hlt].
      set (r := random_tape w 0 mod List.length (x :: t)) in *.
      assert (Hs' : StronglySorted gt [r]) by repeat constructor.
      assert (Hr' : Forall (fun i => i < List.length (x :: t)) [r])
        by (constructor; [exact Hlt|constructor]).
      exists [r], (drawn w).
      split; [exact Hheld|].
      split; [intros Hne; contradiction|].
      split; [auto|].
      split; [exact Hs'|].
      split; [exact Hr'|].
      apply write_roc_datapoint_held; assumption.
  - right.
    assert (HE : i :: E <> []) by discriminate.
    pose proof (held_out_indexes_flagged h (i :: E) w HE) as Hheld.
    exists (rev (i :: E)), w.
    split; [exact Hheld|].
    split; [auto|].
    split; [intros Hnil; discriminate|].
    split; [apply StronglySorted_rev_lt; exact Hs|].
    split; [apply Forall_rev; exact Hr|].
    apply write_roc_datapoint_held;
      [exact Hheld|apply StronglySorted_rev_lt; exact Hs
      |apply Forall_rev; exact Hr].
Qed.

Lemma kept_indexed_not_held_out (A : Type) k held (l : list A) i x :
  In (i, x) (kept_indexed k held l) -> ~ In i held.
Proof.
  unfold kept_indexed; intros Hin Hi.
  apply filter_In in Hin; destruct Hin as [_ Hn]; simpl in Hn.
  apply held_out_true_iff in Hi; rewrite Hi in Hn; discriminate.
Qed.

End FinalizationFacts.

(** C3 (untainted evaluation).  For a history [h] with valid evaluation
    indexes [E]: finalization returns whenever [h] is not empty, and
    every call it makes to the prediction engine is made after all the
    pops, with the same remaining history, which is [h] restricted to
    the positions outside the popped indexes [held]; [held] contains
    [E], so no record whose original index is in [E] is passed. *)
Theorem untainted_evaluation {lib : MirtEngineModule} (model : MIRTEngine)
    (h : list ItemResponse.data) (E : list nat) (w : World) :
  indexes_valid h E ->
  (h <> [] -> exists pts w', write_roc_datapoint h E model w = Ok (pts, w'))
  /\ forall pts w',
       write_roc_datapoint h E model w = Ok (pts, w') ->
       exists held calls,
         incl E held
         /\ engine_calls w' = engine_calls w ++ calls
         /\ List.length calls = List.length held
         /\ List.length pts = List.length held
         /\ Forall (fun c => call_history c = map snd (kept_indexed 0 held h))
              calls
         /\ forall i x, In i E -> ~ In (i, x) (kept_indexed 0 held h).
Proof.
  intros Hv.
  destruct (write_roc_datapoint_valid h E model w Hv)
    as [(Hh & HE & Hraise)
       |(held & w1 & Hheld & Hflag & Hfall & Hs & Hr & Hw)].
  - split; [intros Hne; contradiction|].
    intros pts w' Hok; rewrite Hraise in Hok; discriminate.
  - split; [intros _; eauto|].
    intros pts w' Hok; rewrite Hw in Hok; injection Hok as <- <-.
    exists held, (map (call_of model (without_positions held h))
                    (items_at h held)).
    assert (Hincl : incl E held).
    { destruct E as [|i E]; [intros j []|].
      destruct Hflag as [-> _]; [discriminate|].
      intros j Hj; apply -> in_rev; exact Hj. }
    assert (Hcalls : engine_calls w1 = engine_calls w).
    { destruct E as [|i E].
      - destruct Hfall as [_ ->]; reflexivity.
      - destruct Hflag as [_ ->]; [discriminate|reflexivity]. }
    repeat split.
    + exact Hincl.
    + simpl; rewrite Hcalls; reflexivity.
    + rewrite length_map; apply items_at_length; exact Hr.
    + rewrite length_map; apply items_at_length; exact Hr.
    + apply Forall_forall; intros c Hc.
      apply in_map_iff in Hc; destruct Hc as (item & <- & _); reflexivity.
    + intros i x Hi Hin.
      apply kept_indexed_not_held_out in Hin; apply Hin, Hincl, Hi.
Qed.

Lemma untainted_evaluation_witness :
  exists pts w',
    write_roc_datapoint (lib := counting_engine)
      [ItemResponse.new true "e1" "5"; ItemResponse.new false "e2" "3"] [1]
      counting_model fresh_world = Ok (pts, w').
Proof.
  refine (proj1 (untainted_evaluation (lib := counting_engine)
                   counting_model
                   [ItemResponse.new true "e1" "5";
                    ItemResponse.new false "e2" "3"] [1] fresh_world _) _).
  - split; repeat constructor.
  - discriminate.
Defined.

(** ** load_and_simulate_assessment *)

Section LoopFacts.
Context {lib : MirtEngineModule}.
Variables (params : Params) (indexer : FieldIndexer.t)
  (evaluation_item_index : option Z).

(** One turn of the loop, taken apart: the line parses, the boundary
    code leaves [f1] (the frame itself, a reset without finalization
    while no user is set, or a reset after finalization), and the
    response is appended to [f1]. *)
Lemma loop_body_Ok f line w f' w' :
  loop_body params indexer evaluation_item_index f line w = Ok (f', w') ->
  exists p f1,
    parse_line line indexer evaluation_item_index = Ok p
    /\ f' = appended p f1
    /\ ((user f = p_user p /\ f1 = f /\ w' = w)
        \/ (user f <> p_user p /\ truthy (user f) = false
            /\ f1 = restarted params p (datapoints f) /\ w' = w)
        \/ (user f <> p_user p /\ truthy (user f) = true
            /\ exists pts,
                 write_roc_datapoint (history f) (evaluation_indexes f)
                   (model f) w = Ok (pts, w')
                 /\ f1 = restarted params p (datapoints f ++ pts))).
Proof.
  unfold loop_body, bind at 1, lift.
  destruct (parse_line line indexer evaluation_item_index) as [p|e];
    [|discriminate].
  unfold bind at 1.
  destruct (String.eqb_spec (user f) (p_user p)) as [Heq|Hne]; simpl.
  - unfold ret; intros [= <- <-].
    exists p, f.
    split; [reflexivity|]; split; [reflexivity|].
    left; auto.
  - unfold bind at 1.
    destruct (truthy (user f)) eqn:Ht.
    + unfold bind at 1.
      destruct (write_roc_datapoint _ _ _ w) as [[pts w1]|e] eqn:Hw;
        [|discriminate].
      unfold ret; intros [= <- <-].
      exists p, (restarted params p (datapoints f ++ pts)).
      split; [reflexivity|]; split; [reflexivity|].
      right; right; eauto 10.
    + unfold ret; intros [= <- <-].
      exists p, (restarted params p (datapoints f)).
      split; [reflexivity|]; split; [reflexivity|].
      right; left; auto.
Qed.

Lemma indexes_valid_appended p f :
  indexes_valid (history f) (evaluation_indexes f) ->
  indexes_valid (history (appended p f)) (evaluation_indexes (appended p f)).
Proof.
  intros [Hs Hr]; unfold appended; simpl.
  set (h' := history f ++ [_]).
  assert (Hlen : List.length h' = S (List.length (history f)))
    by (subst h'; rewrite length_app; simpl; lia).
  assert (Hr' : Forall (fun i => i < List.length h') (evaluation_indexes f)).
  { eapply Forall_impl; [|exact Hr]; simpl; intros; lia. }
  destruct (p_is_evaluation p); split; trivial.
  - apply StronglySorted_snoc; [assumption|].
    eapply Forall_impl; [|exact Hr]; simpl; intros; lia.
  - apply Forall_app; split; [exact Hr'|].
    constructor; [lia|constructor].
Qed.

Lemma frame_ok_appended p f :
  frame_ok params f \/ (exists dps, f = restarted params p dps) ->
  frame_ok params (appended p f).
Proof.
  intros H; split.
  - apply indexes_valid_appended.
    destruct H as [[Hv _]|[dps ->]]; [exact Hv|].
    split; constructor.
  - intros Ht; split.
    + destruct H as [[_ Hm]|[dps ->]]; [apply Hm; exact Ht|reflexivity].
    + unfold appended; simpl; intros Hnil.
      apply app_eq_nil in Hnil; destruct Hnil; discriminate.
Qed.

Lemma frame_ok_initial : frame_ok params (initial_frame params).
Proof.
  split.
  - split; constructor.
  - simpl; discriminate.
Qed.

(** The invariant of the loop body, with what the turn did to the
    world: the output file is untouched and every call made was made
    on a model as the constructor left it. *)
Lemma loop_body_invariant f line w f' w' :
  frame_ok params f ->
  loop_body params indexer evaluation_item_index f line w = Ok (f', w') ->
  frame_ok params f'
  /\ outfile w' = outfile w
  /\ exists calls,
       engine_calls w' = engine_calls w ++ calls
       /\ Forall (fun c => call_model c = new_MIRTEngine params) calls.
Proof.
  intros Hok Hb.
  destruct (loop_body_Ok f line w f' w' Hb)
    as (p & f1 & _ & -> & [(_ & -> & ->)|[(_ & _ & -> & ->)
                                         |(_ & Ht & pts & Hw & ->)]]).
  - split; [apply frame_ok_appended; left; exact Hok|].
    split; [reflexivity|].
    exists []; rewrite app_nil_r; split; [reflexivity|constructor].
  - split; [apply frame_ok_appended; right; eauto|].
    split; [reflexivity|].
    exists []; rewrite app_nil_r; split; [reflexivity|constructor].
  - split; [apply frame_ok_appended; right; eauto|].
    destruct (write_roc_datapoint_Ok _ _ _ _ _ _ Hw)
      as (held & w1 & items & h' & _ & Hw1 & _ & _ & ->).
    destruct Hok as [_ Hm]; destruct (Hm Ht) as [Hmodel _].
    split.
    + destruct Hw1 as [->| ->]; reflexivity.
    + exists (map (call_of (model f) h') items); split.
      * destruct Hw1 as [->| ->]; reflexivity.
      * apply Forall_forall; intros c Hc.
        apply in_map_iff in Hc; destruct Hc as (item & <- & _).
        exact Hmodel.
Qed.

Lemma loop_invariant test_data : forall f w f' w',
  frame_ok params f ->
  loop params indexer evaluation_item_index test_data f w = Ok (f', w') ->
  frame_ok params f'
  /\ outfile w' = outfile w
  /\ exists calls,
       engine_calls w' = engine_calls w ++ calls
       /\ Forall (fun c => call_model c = new_MIRTEngine params) calls.
Proof.
  induction test_data as [|line rest IH]; intros f w f' w' Hok; simpl.
  - unfold ret; intros [= <- <-].
    split; [exact Hok|]; split; [reflexivity|].
    exists []; rewrite app_nil_r; split; [reflexivity|constructor].
  - unfold bind.
    destruct (loop_body params indexer evaluation_item_index f line w)
      as [[f1 w1]|e] eqn:Hb; [|discriminate].
    intros Hl.
    destruct (loop_body_invariant f line w f1 w1 Hok Hb)
      as (Hok1 & Hout1 & calls1 & Hc1 & Hm1).
    destruct (IH f1 w1 f' w' Hok1 Hl) as (Hok' & Hout' & calls' & Hc' & Hm').
    split; [exact Hok'|].
    split; [congruence|].
    exists (calls1 ++ calls'); split.
    + rewrite Hc', Hc1, app_assoc; reflexivity.
    + apply Forall_app; split; assumption.
Qed.

(** The loop over a prefix and the rest of the lines. *)
Lemma loop_app l1 l2 f w :
  loop params indexer evaluation_item_index (l1 ++ l2) f w
  = bind (loop params indexer evaluation_item_index l1 f)
      (loop params indexer evaluation_item_index l2) w.
Proof.
  revert f w; induction l1 as [|line l1 IH]; intros f w; simpl.
  - reflexivity.
  - unfold bind.
    destruct (loop_body params indexer evaluation_item_index f line w)
      as [[f1 w1]|e]; [|reflexivity].
    rewrite IH; reflexivity.
Qed.


(** Every turn of the loop ends with the append. *)
Lemma loop_body_history f line w f' w' :
  loop_body params indexer evaluation_item_index f line w = Ok (f', w') ->
  history f' <> [].
Proof.
  intros Hb.
  destruct (loop_body_Ok f line w f' w' Hb) as (p & f1 & _ & -> & _).
  unfold appended; simpl; intros Hnil.
  apply app_eq_nil in Hnil; destruct Hnil; discriminate.
Qed.

Lemma loop_history rest : forall line f w f' w',
  loop params indexer evaluation_item_index (line :: rest) f w
  = Ok (f', w') ->
  history f' <> [].
Proof.
  induction rest as [|line2 rest IH]; intros line f w f' w'.
  - simpl; unfold bind.
    destruct (loop_body params indexer evaluation_item_index f line w)
      as [[f1 w1]|e] eqn:Hb; [|discriminate].
    unfold ret; intros [= <- <-].
    eapply loop_body_history; exact Hb.
  - change (loop params indexer evaluation_item_index
              (line :: line2 :: rest) f w)
      with (bind (loop_body params indexer evaluation_item_index f line)
              (loop params indexer evaluation_item_index (line2 :: rest))
              w).
    unfold bind at 1.
    destruct (loop_body params indexer evaluation_item_index f line w)
      as [[f1 w1]|e]; [|discriminate].
    apply IH.
Qed.

End LoopFacts.

Section NoEvaluationIndex.
Context {lib : MirtEngineModule}.
Variables (params : Params) (indexer : FieldIndexer.t).

Lemma loop_body_None f line w f' w' :
  evaluation_indexes f = [] ->
  loop_body params indexer None f line w = Ok (f', w') ->
  evaluation_indexes f' = [].
Proof.
  intros HE Hb.
  destruct (loop_body_Ok params indexer None f line w f' w' Hb)
    as (p & f1 & Hp & -> & Hcase).
  destruct (parse_line_Ok line indexer None p Hp) as (_ & _ & _ & _ & _ & Hev).
  unfold appended; simpl; rewrite Hev.
  destruct Hcase as [(_ & -> & _)|[(_ & _ & -> & _)|(_ & _ & pts & _ & ->)]];
    [exact HE|reflexivity|reflexivity].
Qed.

Lemma loop_None test_data : forall f w f' w',
  evaluation_indexes f = [] ->
  loop params indexer None test_data f w = Ok (f', w') ->
  evaluation_indexes f' = [].
Proof.
  induction test_data as [|line rest IH]; intros f w f' w' HE; simpl.
  - unfold ret; intros [= <- <-]; exact HE.
  - unfold bind.
    destruct (loop_body params indexer None f line w)
      as [[f1 w1]|e] eqn:Hb; [|discriminate].
    apply IH; eapply loop_body_None; eauto.
Qed.

End NoEvaluationIndex.

Section RunFacts.
Context {lib : MirtEngineModule}.

(** A whole run: the file is opened empty, the loop runs, the
    datapoints of the last frame are returned. *)
Lemma load_and_simulate_assessment_Ok params indexer test_data
    evaluation_item_index w pts w' :
  load_and_simulate_assessment params indexer test_data
    evaluation_item_index w = Ok (pts, w') ->
  exists f,
    loop params indexer evaluation_item_index test_data
      (initial_frame params)
      {| outfile := []; random_tape := random_tape w;
         engine_calls := engine_calls w |} = Ok (f, w')
    /\ pts = datapoints f.
Proof.
  unfold load_and_simulate_assessment, bind, open_w.
  destruct (loop params indexer evaluation_item_index test_data _ _)
    as [[f w1]|e]; [|discriminate].
  unfold ret; intros [= <- <-]; eauto.
Qed.

End RunFacts.

Section FallbackFacts.
Context {lib : MirtEngineModule}.






End FallbackFacts.



(** C10 (indexes of the main loop).  After any number of turns of the
    loop the evaluation indexes are strictly increasing and each is a
    position of the current history; their reversal is therefore
    strictly decreasing, the order in which write_roc_datapoint pops. *)
Theorem evaluation_indexes_invariant {lib : MirtEngineModule}
    (params : Params) (indexer : FieldIndexer.t)
    (evaluation_item_index : option Z) (test_data : list string) (n : nat)
    (w : World) (f : Frame) (w' : World) :
  loop params indexer evaluation_item_index (firstn n test_data)
    (initial_frame params) w = Ok (f, w') ->
  indexes_valid (history f) (evaluation_indexes f)
  /\ StronglySorted gt (rev (evaluation_indexes f)).
Proof.
  intros Hl.
  destruct (loop_invariant params indexer evaluation_item_index
              (firstn n test_data) (initial_frame params) w f w'
              (frame_ok_initial params) Hl) as ((Hv & _) & _).
  split; [exact Hv|].
  apply StronglySorted_rev_lt, Hv.
Qed.

Lemma evaluation_indexes_invariant_witness :
  exists f w',
    loop (lib := counting_engine) counting_params scenario_indexer (Some 4%Z)
      (firstn 2 scenario_A) (initial_frame counting_params) fresh_world = Ok (f, w')
    /\ evaluation_indexes f = [1]
    /\ List.length (history f) = 2
    /\ indexes_valid (history f) (evaluation_indexes f)
    /\ StronglySorted gt (rev (evaluation_indexes f)).
Proof.
  eexists; eexists.
  split; [vm_compute; reflexivity|].
  split; [reflexivity|].
  split; [reflexivity|].
  eapply (evaluation_indexes_invariant (lib := counting_engine)
            counting_params scenario_indexer (Some 4%Z) scenario_A 2 fresh_world).
  vm_compute; reflexivity.
Defined.

(** C8 (no evaluation-flag position).  Without an evaluation item index
    parse_line never flags a record: whatever the line, a returned
    record has is_evaluation false, and a record is returned as soon as
    the line has the fields of the four configured positions.  The
    loop then never records an evaluation index, so that every
    finalization takes the random fallback. *)
Theorem unconfigured_flag_is_false {lib : MirtEngineModule}
    (params : Params) (indexer : FieldIndexer.t) (line : string)
    (test_data : list string) (w : World) :
  (forall p, parse_line line indexer None = Ok p ->
             p_is_evaluation p = false)
  /\ (Forall (fun i => (fields_required i
                        <= Z.of_nat (List.length
                                       (split_comma (strip line))))%Z)
        (configured_indexes indexer None) ->
      exists p, parse_line line indexer None = Ok p
                /\ p_is_evaluation p = false)
  /\ (forall f w',
        loop params indexer None test_data (initial_frame params) w
        = Ok (f, w') ->
        evaluation_indexes f = []).
Proof.
  assert (Hflag : forall p, parse_line line indexer None = Ok p ->
                            p_is_evaluation p = false).
  { intros p Hp.
    destruct (parse_line_Ok line indexer None p Hp)
      as (_ & _ & _ & _ & _ & Hev); exact Hev. }
  split; [exact Hflag|]; split.
  - intros Hlen.
    destruct (parse_line_total line indexer None Hlen) as [p Hp].
    exists p; split; [exact Hp|apply Hflag; exact Hp].
  - intros f w' Hl.
    eapply loop_None; [|exact Hl]; reflexivity.
Qed.

Lemma unconfigured_flag_is_false_witness :
  exists p,
    parse_line "u1,e2,3,false,true" scenario_indexer None = Ok p
    /\ p_is_evaluation p = false.
Proof.
  refine (proj1 (proj2 (unconfigured_flag_is_false (lib := counting_engine)
                          counting_params scenario_indexer "u1,e2,3,false,true"
                          scenario_A fresh_world)) _).
  unfold configured_indexes; simpl.
  repeat constructor; vm_compute; discriminate.
Defined.

(** C5, on the code.  [correct] is true exactly for the fields "true"
    and "True": the [1] of the tuple is an int and no field, being a
    str, equals it.  The field "1" parses as not correct. *)
Theorem field_1_is_not_correct :
  parse_line "u1,e1,5,1" scenario_indexer None
  = Ok {| p_user := "u1"; p_ex := "e1"; p_time := "5";
          p_correct := false; p_is_evaluation := false |}
  /\ forall line indexer evaluation_item_index,
       match parse_line line indexer evaluation_item_index with
       | Ok p =>
           exists c,
             getitem (split_comma (strip line)) (FieldIndexer.correct indexer)
             = Ok c
             /\ (p_correct p = true <-> c = "true"%string \/ c = "True"%string)
       | Raise _ => True
       end.
Proof.
  split; [reflexivity|].
  intros line indexer evaluation_item_index.
  destruct (parse_line line indexer evaluation_item_index) as [p|e] eqn:Hp;
    [|exact I].
  destruct (parse_line_Ok line indexer evaluation_item_index p Hp)
    as (_ & _ & _ & _ & (c & Hc & Hcorrect) & _).
  exists c; split; [exact Hc|].
  rewrite Hcorrect; apply in_true_True_1_iff.
Qed.

(** C1, on the code.  Nothing follows the loop: with the lines of
    scenario A the record of the last user u2 is read and never
    finalized, so that one point is returned, the one of u1; and the
    lines of u1 alone return no point at all.  In general the loop
    ends, on any input with a line, with a history that was not
    finalized. *)
Theorem last_user_is_not_finalized {lib : MirtEngineModule}
    (params : Params) (w : World) :
  (exists w',
     load_and_simulate_assessment params scenario_indexer
       (firstn 2 scenario_A) (Some 4%Z) w = Ok ([], w')
     /\ engine_calls w' = engine_calls w)
  /\ (exists w',
        load_and_simulate_assessment params scenario_indexer scenario_A
          (Some 4%Z) w
        = Ok ([point_of (new_MIRTEngine params)
                 [ItemResponse.new true "e1" "5"]
                 (ItemResponse.new false "e2" "3")], w'))
  /\ forall indexer evaluation_item_index line rest,
       match loop params indexer evaluation_item_index (line :: rest)
               (initial_frame params) w with
       | Ok (f, _) => history f <> []
       | Raise _ => True
       end.
Proof.
  split; [|split].
  - eexists; split; reflexivity.
  - eexists; reflexivity.
  - intros indexer evaluation_item_index line rest.
    destruct (loop params indexer evaluation_item_index (line :: rest)
                (initial_frame params) w) as [[f w']|e] eqn:Hl; [|exact I].
    eapply loop_history; exact Hl.
Qed.

(** C2, on the code.  Nothing is ever written to the output file: with
    the lines of scenario A one point is returned and the file has no
    line; and whatever the input, the file is empty when the run
    returns. *)
Theorem output_file_is_never_written {lib : MirtEngineModule}
    (params : Params) (w : World) :
  (exists pt w',
     load_and_simulate_assessment params scenario_indexer scenario_A
       (Some 4%Z) w = Ok ([pt], w')
     /\ outfile w' = [])
  /\ forall indexer evaluation_item_index test_data,
       match load_and_simulate_assessment params indexer test_data
               evaluation_item_index w with
       | Ok (_, w') => outfile w' = []
       | Raise _ => True
       end.
Proof.
  split.
  - eexists; eexists; split; reflexivity.
  - intros indexer evaluation_item_index test_data.
    destruct (load_and_simulate_assessment params indexer test_data
                evaluation_item_index w) as [[pts w']|e] eqn:Hrun; [|exact I].
    destruct (load_and_simulate_assessment_Ok _ _ _ _ _ _ _ Hrun)
      as (f & Hl & _).
    destruct (loop_invariant _ _ _ _ _ _ _ _ (frame_ok_initial params) Hl)
      as (_ & Hout & _).
    exact Hout.
Qed.

(** C4, on the code.  The model that [only_live_exercises = False] is
    set on is replaced at the first boundary, before any finalization;
    every prediction is made on a model as the constructor left it.
    With a constructor that leaves the flag on, the prediction for u1
    in scenario A is made with the flag on. *)
Theorem predictions_use_the_constructor_flag :
  (exists pts w' c,
     load_and_simulate_assessment (lib := counting_engine) counting_params
       scenario_indexer scenario_A (Some 4%Z) fresh_world = Ok (pts, w')
     /\ engine_calls w' = [c]
     /\ only_live_exercises (call_model c) = true)
  /\ forall (lib : MirtEngineModule) (params : Params) indexer
            evaluation_item_index test_data (w : World),
       match load_and_simulate_assessment params indexer test_data
               evaluation_item_index w with
       | Ok (_, w') =>
           exists calls,
             engine_calls w' = engine_calls w ++ calls
             /\ Forall (fun c => only_live_exercises (call_model c)
                                 = default_only_live_exercises) calls
       | Raise _ => True
       end.
Proof.
  split.
  - eexists; eexists; eexists.
    split; [vm_compute; reflexivity|]; split; reflexivity.
  - intros lib params indexer evaluation_item_index test_data w.
    destruct (load_and_simulate_assessment params indexer test_data
                evaluation_item_index w) as [[pts w']|e] eqn:Hrun; [|exact I].
    destruct (load_and_simulate_assessment_Ok _ _ _ _ _ _ _ Hrun)
      as (f & Hl & _).
    destruct (loop_invariant _ _ _ _ _ _ _ _ (frame_ok_initial params) Hl)
      as (_ & _ & calls & Hc & Hm).
    exists calls; split; [exact Hc|].
    eapply Forall_impl; [|exact Hm].
    intros c ->; reflexivity.
Qed.

(** * Further properties of the code *)

(** ** Lines and fields *)

Section StringFacts.

Lemma list_ascii_of_string_app (a b : string) :
  list_ascii_of_string (a ++ b)
  = (list_ascii_of_string a ++ list_ascii_of_string b)%list.
Proof.
  induction a as [|c a IH]; simpl; [reflexivity|].
  rewrite IH; reflexivity.
Qed.

Lemma lstrip_spaces (l x : list ascii) :
  forallb is_space l = true -> lstrip (l ++ x) = lstrip x.
Proof.
  induction l as [|c l IH]; simpl; [reflexivity|].
  intros H; apply andb_true_iff in H; destruct H as [Hc Hl].
  rewrite Hc; apply IH; exact Hl.
Qed.

Lemma lstrip_nil_iff_spaces (x : list ascii) :
  lstrip x = [] <-> forallb is_space x = true.
Proof.
  induction x as [|c x IH]; simpl; [tauto|].
  destruct (is_space c); simpl; [exact IH|].
  split; discriminate.
Qed.

(** Whitespace after something that is not whitespace stays. *)
Lemma lstrip_app_kept (x r : list ascii) :
  lstrip x <> [] -> lstrip (x ++ r) = (lstrip x ++ r)%list.
Proof.
  induction x as [|c x IH]; simpl; [congruence|].
  destruct (is_space c); [exact IH|reflexivity].
Qed.

Lemma rstrip_spaces (x r : list ascii) :
  forallb is_space r = true ->
  rev (lstrip (rev (x ++ r))) = rev (lstrip (rev x)).
Proof.
  intros Hr; rewrite rev_app_distr, lstrip_spaces; [reflexivity|].
  rewrite forallb_forall in *; intros c Hc; apply Hr, in_rev; exact Hc.
Qed.

Lemma strip_surrounding (l s r : string) :
  all_space l = true -> all_space r = true ->
  strip (l ++ s ++ r) = strip s.
Proof.
  unfold all_space, strip; intros Hl Hr; f_equal.
  rewrite !list_ascii_of_string_app.
  rewrite lstrip_spaces by exact Hl.
  set (x := list_ascii_of_string s); set (y := list_ascii_of_string r) in *.
  destruct (lstrip x) as [|c t] eqn:Hx.
  - assert (Hall : forallb is_space (x ++ y) = true).
    { rewrite forallb_app; apply andb_true_iff; split; [|exact Hr].
      apply lstrip_nil_iff_spaces; exact Hx. }
    apply lstrip_nil_iff_spaces in Hall; rewrite Hall; reflexivity.
  - rewrite lstrip_app_kept by (rewrite Hx; discriminate).
    rewrite Hx; apply rstrip_spaces; exact Hr.
Qed.

Lemma split_comma_not_nil (s : string) : split_comma s <> [].
Proof.
  destruct s as [|c t]; simpl; [discriminate|].
  destruct (Ascii.eqb c ","); [discriminate|].
  destruct (split_comma t); discriminate.
Qed.

Lemma concat_comma_cons (f : string) (fs : list string) :
  fs <> [] ->
  String.concat "," (f :: fs) = (f ++ "," ++ String.concat "," fs)%string.
Proof. destruct fs; [congruence|reflexivity]. Qed.

End StringFacts.

(** X1.  [split(',')] loses nothing: joining the fields with commas gives
    the string back, there is one field more than there are commas (so
    at least one), and no field holds a comma. *)
Theorem split_comma_join (s : string) :
  String.concat "," (split_comma s) = s
  /\ List.length (split_comma s) = S (count_commas s)
  /\ Forall (fun f => count_commas f = 0) (split_comma s).
Proof.
  induction s as [|c t (IHj & IHn & IHc)]; simpl.
  - repeat split; repeat constructor.
  - destruct (Ascii.eqb_spec c ","%char) as [->|Hne].
    + rewrite concat_comma_cons by apply split_comma_not_nil.
      rewrite IHj; simpl; rewrite IHn.
      repeat split; constructor; [reflexivity|exact IHc].
    + pose proof (split_comma_not_nil t) as Hnn.
      destruct (split_comma t) as [|f fs]; [congruence|].
      simpl in IHn; apply Forall_cons_iff in IHc; destruct IHc as [Hf Hfs].
      repeat split.
      * destruct fs as [|g fs]; simpl in *; [rewrite IHj; reflexivity|].
        rewrite <- IHj; reflexivity.
      * simpl; exact IHn.
      * constructor; [|exact Hfs].
        simpl; destruct (Ascii.eqb_spec c ","%char); [contradiction|exact Hf].
Qed.

(** X2.  Whitespace around a line, such as the newline that ends a line
    read from the file, does not reach parse_line's fields: the line
    parses as it does without it. *)
Theorem parse_line_ignores_surrounding_whitespace (l line r : string)
    (indexer : FieldIndexer.t) (evaluation_item_index : option Z) :
  all_space l = true -> all_space r = true ->
  parse_line (l ++ line ++ r) indexer evaluation_item_index
  = parse_line line indexer evaluation_item_index.
Proof.
  intros Hl Hr; unfold parse_line.
  rewrite (strip_surrounding l line r Hl Hr); reflexivity.
Qed.

Lemma parse_line_ignores_surrounding_whitespace_witness :
  parse_line (" " ++ "u1,e2,3,false,true"
              ++ String (ascii_of_nat 10) EmptyString)
    scenario_indexer (Some 4%Z)
  = parse_line "u1,e2,3,false,true" scenario_indexer (Some 4%Z).
Proof.
  apply (parse_line_ignores_surrounding_whitespace " " "u1,e2,3,false,true"
           (String (ascii_of_nat 10) EmptyString) scenario_indexer
           (Some 4%Z)); reflexivity.
Defined.

Section ParseMoreFacts.

Lemma getitem_Ok_long_enough (A : Type) (l : list A) (i : Z) (x : A) :
  getitem l i = Ok x ->
  (fields_required i <= Z.of_nat (List.length l))%Z.
Proof.
  intros Hg.
  destruct (Z_lt_le_dec (Z.of_nat (List.length l)) (fields_required i))
    as [Hlt|Hle]; [|exact Hle].
  rewrite (getitem_too_short A l i Hlt) in Hg; discriminate.
Qed.

(** A negative index counts from the end of the list. *)
Lemma getitem_negative (A : Type) (l : list A) (k : Z) (x : A) :
  (k < 0)%Z -> getitem l k = Ok x ->
  nth_error (rev l) (Z.to_nat (- k - 1)) = Some x.
Proof.
  intros Hk; unfold getitem.
  replace (k <? 0)%Z with true by (symmetry; apply Z.ltb_lt; exact Hk).
  set (n := Z.of_nat (List.length l)).
  destruct ((0 <=? k + n)%Z && (k + n <? n)%Z) eqn:Hrange; [|discriminate].
  apply andb_true_iff in Hrange; destruct Hrange as [H0 H1].
  apply Z.leb_le in H0; apply Z.ltb_lt in H1.
  destruct (nth_error l (Z.to_nat (k + n))) as [y|] eqn:Hn; [|discriminate].
  intros [= <-].
  rewrite nth_error_rev.
  replace (Z.to_nat (- k - 1) <? List.length l) with true
    by (symmetry; apply Nat.ltb_lt; subst n; lia).
  rewrite <- Hn; f_equal; subst n; lia.
Qed.

End ParseMoreFacts.

(** X3.  parse_line returns a record exactly when the line has a field
    at every configured position; otherwise it raises. *)
Theorem parse_line_returns_iff (line : string) (indexer : FieldIndexer.t)
    (evaluation_item_index : option Z) :
  (exists p, parse_line line indexer evaluation_item_index = Ok p)
  <-> Forall (fun i => (fields_required i
                        <= Z.of_nat (List.length
                                       (split_comma (strip line))))%Z)
        (configured_indexes indexer evaluation_item_index).
Proof.
  split.
  - intros [p Hp].
    destruct (parse_line_Ok line indexer evaluation_item_index p Hp)
      as (Hall & _).
    eapply Forall_impl; [|exact Hall].
    intros i [x Hx]; eapply getitem_Ok_long_enough; exact Hx.
  - apply parse_line_total.
Qed.

Lemma parse_line_returns_iff_witness :
  exists p, parse_line "u1,e1,5,true" scenario_indexer None = Ok p.
Proof.
  apply (proj2 (parse_line_returns_iff "u1,e1,5,true" scenario_indexer None)).
  unfold configured_indexes; simpl.
  repeat constructor; vm_compute; discriminate.
Defined.

(** X4.  With an evaluation item index, a returned record is flagged
    exactly when the field at that index is "true" or "True"; the
    comparison is case sensitive and no other spelling flags. *)
Theorem evaluation_flag_spellings (line : string) (indexer : FieldIndexer.t)
    (k : Z) (p : Parsed) :
  parse_line line indexer (Some k) = Ok p ->
  exists f,
    getitem (split_comma (strip line)) k = Ok f
    /\ (p_is_evaluation p = true
        <-> f = "true"%string \/ f = "True"%string).
Proof.
  intros Hp.
  destruct (parse_line_Ok line indexer (Some k) p Hp)
    as (_ & _ & _ & _ & _ & f & Hf & Hflag).
  exists f; split; [exact Hf|].
  rewrite Hflag; unfold in_true_True, contains; simpl.
  rewrite orb_false_r, orb_true_iff, !String.eqb_eq; reflexivity.
Qed.

Lemma evaluation_flag_spellings_witness :
  exists f,
    getitem (split_comma (strip "u1,e2,3,false,TRUE")) 4%Z = Ok f
    /\ (false = true <-> f = "true"%string \/ f = "True"%string).
Proof.
  exact (evaluation_flag_spellings "u1,e2,3,false,TRUE" scenario_indexer 4%Z
           {| p_user := "u1"; p_ex := "e2"; p_time := "3";
              p_correct := false; p_is_evaluation := false |} eq_refl).
Defined.

(** X5.  A negative evaluation item index counts fields from the end of
    the line: with index [k < 0] the flag is read from the field that
    is [-k]-th from the last, however many fields the line has. *)
Theorem negative_evaluation_index_counts_from_end (line : string)
    (indexer : FieldIndexer.t) (k : Z) (p : Parsed) :
  (k < 0)%Z ->
  parse_line line indexer (Some k) = Ok p ->
  exists f,
    nth_error (rev (split_comma (strip line))) (Z.to_nat (- k - 1)) = Some f
    /\ p_is_evaluation p = in_true_True f.
Proof.
  intros Hk Hp.
  destruct (parse_line_Ok line indexer (Some k) p Hp)
    as (_ & _ & _ & _ & _ & f & Hf & Hflag).
  exists f; split; [|exact Hflag].
  apply getitem_negative; assumption.
Qed.

Lemma negative_evaluation_index_counts_from_end_witness :
  exists f,
    nth_error (rev (split_comma (strip "u1,e2,3,false,extra,true"))) 0
    = Some f
    /\ true = in_true_True f.
Proof.
  refine (negative_evaluation_index_counts_from_end
            "u1,e2,3,false,extra,true" scenario_indexer (-1)%Z
            {| p_user := "u1"; p_ex := "e2"; p_time := "3";
               p_correct := false; p_is_evaluation := true |} _ eq_refl).
  reflexivity.
Defined.

(** ** Finalization on arbitrary indexes *)

Section FinalizationMoreFacts.
Context {lib : MirtEngineModule}.

Lemma pop_Ok_length (A : Type) (h : list A) : forall d x h',
  pop h d = Ok (x, h') ->
  d < List.length h /\ S (List.length h') = List.length h.
Proof.
  induction h as [|y t IH]; intros d x h' Hp; simpl in Hp; [discriminate|].
  destruct d as [|d].
  - injection Hp as <- <-; simpl; lia.
  - destruct (pop t d) as [[z t']|e] eqn:Ht; [|discriminate].
    injection Hp as <- <-.
    destruct (IH d z t' Ht); simpl; lia.
Qed.

(** An index beyond the history stops the first loop, wherever it
    stands in the list and whatever the other indexes are. *)
Lemma pop_evaluation_items_out_of_range (A : Type) (D : list nat) :
  forall (h acc : list A) i,
    In i D -> List.length h <= i ->
    pop_evaluation_items h D acc = Raise IndexError.
Proof.
  induction D as [|d D IH]; intros h acc i Hi Hlen; [destruct Hi|].
  simpl.
  destruct (pop h d) as [[x h']|[]] eqn:Hp; [|reflexivity].
  destruct (pop_Ok_length A h d x h' Hp) as [Hd Hl].
  destruct Hi as [->|Hi]; [lia|].
  apply (IH h' (acc ++ [x]) i Hi); lia.
Qed.

(** The first loop pops one record per index, sorted or not. *)
Lemma pop_evaluation_items_lengths (A : Type) (D : list nat) :
  forall (h acc items h' : list A),
    pop_evaluation_items h D acc = Ok (items, h') ->
    List.length items = List.length acc + List.length D
    /\ List.length h' + List.length D = List.length h.
Proof.
  induction D as [|d D IH]; intros h acc items h'; simpl.
  - intros [= <- <-]; lia.
  - destruct (pop h d) as [[x t]|e] eqn:Hp; [|discriminate].
    intros Hrest.
    destruct (pop_Ok_length A h d x t Hp) as [_ Hl].
    destruct (IH t (acc ++ [x]) items h' Hrest) as [Hi Hh].
    rewrite length_app in Hi; simpl in Hi; lia.
Qed.

Lemma held_out_indexes_Ok h E w held w1 :
  held_out_indexes h E w = Ok (held, w1) ->
  (E <> [] /\ held = rev E /\ w1 = w)
  \/ (E = [] /\ w1 = drawn w /\ exists r, held = [r]).
Proof.
  unfold held_out_indexes.
  destruct (rev E) as [|i l] eqn:Hr.
  - apply (f_equal (@rev nat)) in Hr; rewrite rev_involutive in Hr.
    simpl in Hr; subst E.
    unfold bind, random_choice.
    destruct (nth_error _ _) as [r|]; [|discriminate].
    unfold ret; intros [= <- <-]; right; eauto.
  - unfold ret; intros [= <- <-]; left; repeat split.
    intros ->; discriminate.
Qed.

End FinalizationMoreFacts.

(** X6.  An evaluation index beyond the end of the history makes
    write_roc_datapoint raise IndexError, whatever the other indexes
    and their order. *)
Theorem out_of_range_index_raises {lib : MirtEngineModule}
    (h : list ItemResponse.data) (E : list nat) (model : MIRTEngine)
    (w : World) (i : nat) :
  In i E -> List.length h <= i ->
  write_roc_datapoint h E model w = Raise IndexError.
Proof.
  intros Hi Hlen.
  assert (HE : E <> []) by (intros ->; destruct Hi).
  unfold write_roc_datapoint, bind at 1.
  rewrite (held_out_indexes_flagged h E w HE).
  unfold bind, lift.
  rewrite (pop_evaluation_items_out_of_range _ (rev E) h [] i);
    [reflexivity| |exact Hlen].
  apply -> in_rev; exact Hi.
Qed.

Lemma out_of_range_index_raises_witness :
  write_roc_datapoint (lib := counting_engine)
    [ItemResponse.new true "e1" "5"; ItemResponse.new false "e2" "3"]
    [0; 2] counting_model fresh_world = Raise IndexError.
Proof.
  apply (out_of_range_index_raises (lib := counting_engine)
           [ItemResponse.new true "e1" "5"; ItemResponse.new false "e2" "3"]
           [0; 2] counting_model fresh_world 2).
  - simpl; auto.
  - simpl; lia.
Defined.

(** X7.  Whenever write_roc_datapoint returns on a non-empty list of
    indexes, sorted or not, it returns one point per index, has made
    one call per index, all on the given model and all with one and
    the same history, which is shorter than the original by the number
    of indexes; it has left the output file and the random source as
    they were. *)
Theorem one_point_per_index {lib : MirtEngineModule}
    (h : list ItemResponse.data) (E : list nat) (model : MIRTEngine)
    (w : World) (pts : list Datapoint) (w' : World) :
  E <> [] ->
  write_roc_datapoint h E model w = Ok (pts, w') ->
  List.length pts = List.length E
  /\ exists calls h',
       w' = called w calls
       /\ List.length calls = List.length E
       /\ List.length h' + List.length E = List.length h
       /\ Forall (fun c => call_model c = model /\ call_history c = h') calls.
Proof.
  intros HE Hw.
  destruct (write_roc_datapoint_Ok h E model w pts w' Hw)
    as (held & w1 & items & h' & Hheld & _ & Hpop & -> & ->).
  destruct (held_out_indexes_Ok h E w held w1 Hheld)
    as [(_ & -> & ->)|(Hnil & _)]; [|contradiction].
  destruct (pop_evaluation_items_lengths _ (rev E) h [] items h' Hpop)
    as [Hitems Hh'].
  rewrite length_rev in *; simpl in Hitems.
  split; [rewrite length_map; exact Hitems|].
  exists (map (call_of model h') items), h'.
  repeat split; trivial.
  - rewrite length_map; exact Hitems.
  - apply Forall_forall; intros c Hc.
    apply in_map_iff in Hc; destruct Hc as (item & <- & _); split; reflexivity.
Qed.

Lemma one_point_per_index_witness :
  exists pts w',
    write_roc_datapoint (lib := counting_engine)
      [ItemResponse.new true "e1" "5"; ItemResponse.new false "e2" "3";
       ItemResponse.new true "e3" "1"]
      [1; 0] counting_model fresh_world = Ok (pts, w')
    /\ List.length pts = 2.
Proof.
  eexists; eexists; split; [vm_compute; reflexivity|].
  refine (proj1 (one_point_per_index (lib := counting_engine)
                   [ItemResponse.new true "e1" "5";
                    ItemResponse.new false "e2" "3";
                    ItemResponse.new true "e3" "1"]
                   [1; 0] counting_model fresh_world _ _ _ _)).
  - discriminate.
  - vm_compute; reflexivity.
Defined.

(** X8.  On valid flagged indexes write_roc_datapoint returns, last
    flagged record first, one point per flagged record: 1 or 0 as the
    record is correct or not, with the engine's prediction for the
    record's exercise from the history without the flagged records.
    Only the log of calls changes. *)
Theorem flagged_finalization_result {lib : MirtEngineModule}
    (h : list ItemResponse.data) (E : list nat) (model : MIRTEngine)
    (w : World) :
  indexes_valid h E -> E <> [] ->
  write_roc_datapoint h E model w
  = Ok (map (point_of model (without_positions E h)) (items_at h (rev E)),
        called w (map (call_of model (without_positions E h))
                    (items_at h (rev E)))).
Proof.
  intros [Hs Hr] HE.
  rewrite (write_roc_datapoint_held h E model w (rev E) w
             (held_out_indexes_flagged h E w HE)
             (StronglySorted_rev_lt E Hs) (Forall_rev Hr)).
  rewrite without_positions_rev; reflexivity.
Qed.

Lemma flagged_finalization_result_witness :
  write_roc_datapoint (lib := counting_engine)
    [ItemResponse.new true "e1" "5"; ItemResponse.new false "e2" "3";
     ItemResponse.new true "e3" "1"]
    [0; 2] counting_model fresh_world
  = Ok ([@Build_Datapoint counting_engine 1 1;
         @Build_Datapoint counting_engine 1 1],
        called fresh_world
          [{| call_model := counting_model;
              call_history := [ItemResponse.new false "e2" "3"];
              call_exercise := "e3" |};
           {| call_model := counting_model;
              call_history := [ItemResponse.new false "e2" "3"];
              call_exercise := "e1" |}]).
Proof.
  refine (flagged_finalization_result (lib := counting_engine)
           [ItemResponse.new true "e1" "5"; ItemResponse.new false "e2" "3";
            ItemResponse.new true "e3" "1"]
           [0; 2] counting_model fresh_world _ _).
  - split; repeat constructor.
  - discriminate.
Defined.

(** ** Whole runs *)

Section RunMoreFacts.
Context {lib : MirtEngineModule}.
Variables (params : Params) (indexer : FieldIndexer.t)
  (evaluation_item_index : option Z).

(** A turn of the loop on a line that parses cannot fail: the history
    that is finalized has a record and valid indexes. *)
Lemma loop_body_total f line w :
  frame_ok params f ->
  (exists p, parse_line line indexer evaluation_item_index = Ok p) ->
  exists f' w',
    loop_body params indexer evaluation_item_index f line w = Ok (f', w').
Proof.
  intros [Hv Hm] [p Hp].
  unfold loop_body, bind at 1, lift; rewrite Hp.
  unfold bind at 1.
  destruct (negb (String.eqb (user f) (p_user p))); [|unfold ret; eauto].
  unfold bind at 1.
  destruct (truthy (user f)) eqn:Ht; [|unfold ret; eauto].
  unfold bind at 1.
  destruct (write_roc_datapoint_valid (history f) (evaluation_indexes f)
              (model f) w Hv)
    as [(Hnil & _)|(held & w1 & _ & _ & _ & _ & _ & Hw)].
  - destruct (Hm eq_refl) as [_ Hne]; contradiction.
  - rewrite Hw; unfold ret; eauto.
Qed.

Lemma loop_total test_data : forall f w,
  frame_ok params f -> Forall (fun line =>
            exists p, parse_line line indexer evaluation_item_index = Ok p)
    test_data ->
  exists f' w',
    loop params indexer evaluation_item_index test_data f w = Ok (f', w').
Proof.
  induction test_data as [|line rest IH]; intros f w Hok Hall; simpl.
  - unfold ret; eauto.
  - inversion Hall as [|? ? Hline Hrest]; subst.
    destruct (loop_body_total f line w Hok Hline) as (f1 & w1 & Hb).
    unfold bind; rewrite Hb.
    destruct (loop_body_invariant params indexer evaluation_item_index
                f line w f1 w1 Hok Hb) as (Hok1 & _).
    apply IH; assumption.
Qed.

Lemma loop_Ok_parses test_data : forall f w f' w',
  loop params indexer evaluation_item_index test_data f w = Ok (f', w') ->
  Forall (fun line =>
            exists p, parse_line line indexer evaluation_item_index = Ok p)
    test_data.
Proof.
  induction test_data as [|line rest IH]; intros f w f' w'; simpl;
    [constructor|].
  unfold bind.
  destruct (loop_body params indexer evaluation_item_index f line w)
    as [[f1 w1]|e] eqn:Hb; [|discriminate].
  intros Hrest; constructor; [|eapply IH; exact Hrest].
  destruct (loop_body_Ok params indexer evaluation_item_index
              f line w f1 w1 Hb) as (p & _ & Hp & _).
  eauto.
Qed.

(** Lines of one user, from a frame of that user or of no user: no
    finalization, the world is not touched. *)
Lemma loop_single_user u test_data : forall f w,
  Forall (fun line =>
            exists p, parse_line line indexer evaluation_item_index = Ok p
                      /\ p_user p = u) test_data ->
  user f = u \/ truthy (user f) = false ->
  exists f',
    loop params indexer evaluation_item_index test_data f w = Ok (f', w)
    /\ datapoints f' = datapoints f
    /\ (user f' = u \/ truthy (user f') = false).
Proof.
  induction test_data as [|line rest IH]; intros f w Hall Hu; simpl.
  - unfold ret; eauto.
  - inversion Hall as [|? ? (p & Hp & Hpu) Hrest]; subst.
    assert (Hb : exists f1,
               loop_body params indexer evaluation_item_index f line w
               = Ok (f1, w)
               /\ datapoints f1 = datapoints f /\ user f1 = p_user p).
    { unfold loop_body, bind at 1, lift; rewrite Hp.
      unfold bind at 1.
      destruct (String.eqb_spec (user f) (p_user p)) as [Heq|Hne]; simpl.
      - unfold ret; eexists; split; [reflexivity|]; simpl; auto.
      - destruct Hu as [Hu|Hu]; [contradiction|].
        unfold bind at 1; rewrite Hu.
        unfold ret; eexists; split; [reflexivity|]; simpl; auto. }
    destruct Hb as (f1 & Hb & Hd1 & Hu1).
    unfold bind; rewrite Hb.
    destruct (IH f1 w Hrest (or_introl Hu1)) as (f' & Hl & Hd & Hu').
    exists f'; repeat split; [exact Hl|congruence|exact Hu'].
Qed.

Lemma answers_map model h items :
  Forall2 answers (map (point_of model h) items)
    (map (call_of model h) items).
Proof.
  induction items as [|item items IH]; simpl; constructor;
    [reflexivity|exact IH].
Qed.

Lemma actual_map model h items :
  Forall (fun pt => actual pt = 0%Z \/ actual pt = 1%Z)
    (map (point_of model h) items).
Proof.
  apply Forall_forall; intros pt Hpt.
  apply in_map_iff in Hpt; destruct Hpt as (item & <- & _).
  unfold point_of; simpl; destruct (ItemResponse.correct item); auto.
Qed.

(** What a run adds: points at the end of the datapoints, calls at the
    end of the log, the i-th point being the answer to the i-th call. *)
Lemma loop_points_and_calls test_data : forall f w f' w',
  loop params indexer evaluation_item_index test_data f w = Ok (f', w') ->
  exists more calls,
    datapoints f' = datapoints f ++ more
    /\ engine_calls w' = engine_calls w ++ calls
    /\ Forall2 answers more calls
    /\ Forall (fun pt => actual pt = 0%Z \/ actual pt = 1%Z) more.
Proof.
  induction test_data as [|line rest IH]; intros f w f' w'; simpl.
  - unfold ret; intros [= <- <-].
    exists [], []; rewrite !app_nil_r; repeat split; constructor.
  - unfold bind.
    destruct (loop_body params indexer evaluation_item_index f line w)
    as [[f1 w1]|e] eqn:Hb; [|discriminate].
    intros Hrest.
    destruct (IH f1 w1 f' w' Hrest) as (more2 & calls2 & Hd2 & Hc2 & Ha2 & Hz2).
    assert (H1 : exists more1 calls1,
               datapoints f1 = datapoints f ++ more1
               /\ engine_calls w1 = engine_calls w ++ calls1
               /\ Forall2 answers more1 calls1
               /\ Forall (fun pt => actual pt = 0%Z \/ actual pt = 1%Z) more1).
    { destruct (loop_body_Ok params indexer evaluation_item_index
                  f line w f1 w1 Hb)
        as (p & f0 & _ & -> & [(_ & -> & ->)|[(_ & _ & -> & ->)
                                             |(_ & _ & pts & Hw & ->)]]).
      - exists [], []; rewrite !app_nil_r; repeat split; constructor.
      - exists [], []; simpl; rewrite !app_nil_r; repeat split; constructor.
      - destruct (write_roc_datapoint_Ok _ _ _ _ _ _ Hw)
          as (held & w0 & items & h' & _ & Hw0 & _ & -> & ->).
        exists (map (point_of (model f) h') items),
               (map (call_of (model f) h') items).
        repeat split.
        + destruct Hw0 as [->| ->]; reflexivity.
        + apply answers_map.
        + apply actual_map. }
    destruct H1 as (more1 & calls1 & Hd1 & Hc1 & Ha1 & Hz1).
    exists (more1 ++ more2), (calls1 ++ calls2).
    repeat split.
    + rewrite Hd2, Hd1, app_assoc; reflexivity.
    + rewrite Hc2, Hc1, app_assoc; reflexivity.
    + apply Forall2_app; assumption.
    + apply Forall_app; split; assumption.
Qed.

End RunMoreFacts.

Section LoadFacts.
Context {lib : MirtEngineModule}.

(** The run in terms of the loop from the opened world. *)
Lemma load_and_simulate_assessment_eq params indexer test_data
    evaluation_item_index w :
  load_and_simulate_assessment params indexer test_data
    evaluation_item_index w
  = match loop params indexer evaluation_item_index test_data
            (initial_frame params) (opened w) with
    | Ok (f, w') => Ok (datapoints f, w')
    | Raise e => Raise e
    end.
Proof. reflexivity. Qed.

End LoadFacts.

(** X9.  A run returns exactly when every line of the input parses; one
    line that does not parse, wherever it stands, makes the whole run
    raise IndexError, and no datapoint is returned. *)
Theorem run_returns_iff_lines_parse {lib : MirtEngineModule}
    (params : Params) (indexer : FieldIndexer.t) (test_data : list string)
    (evaluation_item_index : option Z) (w : World) :
  ((exists pts w',
      load_and_simulate_assessment params indexer test_data
        evaluation_item_index w = Ok (pts, w'))
   <-> Forall (fun line =>
                 exists p,
                   parse_line line indexer evaluation_item_index = Ok p)
         test_data)
  /\ ((exists line,
         In line test_data
         /\ parse_line line indexer evaluation_item_index = Raise IndexError)
      -> load_and_simulate_assessment params indexer test_data
           evaluation_item_index w = Raise IndexError).
Proof.
  assert (Hiff :
            (exists pts w',
               load_and_simulate_assessment params indexer test_data
                 evaluation_item_index w = Ok (pts, w'))
            <-> Forall (fun line =>
                          exists p,
                            parse_line line indexer evaluation_item_index
                            = Ok p) test_data).
  { rewrite load_and_simulate_assessment_eq; split.
    - intros (pts & w' & Hrun).
      destruct (loop params indexer evaluation_item_index test_data
                  (initial_frame params) (opened w))
        as [[f w1]|e] eqn:Hl; [|discriminate].
      eapply loop_Ok_parses; exact Hl.
    - intros Hall.
      destruct (loop_total params indexer evaluation_item_index test_data
                  (initial_frame params) (opened w)
                  (frame_ok_initial params) Hall) as (f & w1 & Hl).
      rewrite Hl; eauto. }
  split; [exact Hiff|].
  intros (line & Hin & Hraise).
  destruct (load_and_simulate_assessment params indexer test_data
              evaluation_item_index w) as [[pts w']|[]] eqn:Hrun;
    [|reflexivity].
  assert (Hall := proj1 Hiff (ex_intro _ pts (ex_intro _ w' eq_refl))).
  rewrite Forall_forall in Hall.
  destruct (Hall line Hin) as [p Hp]; congruence.
Qed.

Lemma run_returns_iff_lines_parse_witness :
  load_and_simulate_assessment (lib := counting_engine) counting_params
    scenario_indexer
    ["u1,e1,5,true,false"; "u1,e2"; "u2,e1,4,true,false"]%string
    (Some 4%Z) fresh_world = Raise IndexError.
Proof.
  apply (proj2 (run_returns_iff_lines_parse (lib := counting_engine)
                  counting_params scenario_indexer
                  ["u1,e1,5,true,false"; "u1,e2"; "u2,e1,4,true,false"]%string
                  (Some 4%Z) fresh_world)).
  exists "u1,e2"%string; split; [simpl; auto|reflexivity].
Defined.

(** X10.  While every line read belongs to one and the same user, no
    history is finalized: the run returns no datapoint, makes no call
    to the engine and takes nothing from the random source. *)
Theorem single_user_gives_no_datapoint {lib : MirtEngineModule}
    (params : Params) (indexer : FieldIndexer.t) (test_data : list string)
    (evaluation_item_index : option Z) (w : World) (u : string) :
  Forall (fun line =>
            exists p, parse_line line indexer evaluation_item_index = Ok p
                      /\ p_user p = u) test_data ->
  load_and_simulate_assessment params indexer test_data
    evaluation_item_index w = Ok ([], opened w).
Proof.
  intros Hall.
  rewrite load_and_simulate_assessment_eq.
  destruct (loop_single_user params indexer evaluation_item_index u
              test_data (initial_frame params) (opened w) Hall
              (or_intror eq_refl)) as (f & Hl & Hd & _).
  rewrite Hl, Hd; reflexivity.
Qed.

Lemma single_user_gives_no_datapoint_witness :
  load_and_simulate_assessment (lib := counting_engine) counting_params
    scenario_indexer (firstn 2 scenario_A) (Some 4%Z) fresh_world
  = Ok ([], opened fresh_world).
Proof.
  apply (single_user_gives_no_datapoint (lib := counting_engine)
           counting_params scenario_indexer (firstn 2 scenario_A)
           (Some 4%Z) fresh_world "u1").
  repeat constructor; eexists; split; reflexivity.
Defined.

(** X11.  Datapoints are only ever appended: the datapoints of a run on
    a prefix of the input are a prefix of the datapoints of the run on
    the whole input, and the run on the prefix returns whenever the
    run on the whole input does. *)
Theorem datapoints_of_prefix {lib : MirtEngineModule}
    (params : Params) (indexer : FieldIndexer.t) (l1 l2 : list string)
    (evaluation_item_index : option Z) (w : World)
    (pts : list Datapoint) (w' : World) :
  load_and_simulate_assessment params indexer (l1 ++ l2)
    evaluation_item_index w = Ok (pts, w') ->
  exists pts1 w1 more,
    load_and_simulate_assessment params indexer l1
      evaluation_item_index w = Ok (pts1, w1)
    /\ pts = pts1 ++ more.
Proof.
  rewrite !load_and_simulate_assessment_eq, loop_app; unfold bind.
  destruct (loop params indexer evaluation_item_index l1
              (initial_frame params) (opened w))
    as [[f1 w1]|e]; [|discriminate].
  destruct (loop params indexer evaluation_item_index l2 f1 w1)
    as [[f2 w2]|e] eqn:Hl2; [|discriminate].
  intros [= <- <-].
  destruct (loop_points_and_calls params indexer evaluation_item_index
              l2 f1 w1 f2 w2 Hl2) as (more & _ & Hd & _).
  exists (datapoints f1), w1, more; split; [reflexivity|exact Hd].
Qed.

Lemma datapoints_of_prefix_witness :
  exists pts1 w1 more,
    load_and_simulate_assessment (lib := counting_engine) counting_params
      scenario_indexer (firstn 2 scenario_A) (Some 4%Z) fresh_world
    = Ok (pts1, w1)
    /\ [@Build_Datapoint counting_engine 0 1] = pts1 ++ more.
Proof.
  eapply (datapoints_of_prefix (lib := counting_engine) counting_params
            scenario_indexer (firstn 2 scenario_A) (skipn 2 scenario_A)
            (Some 4%Z) fresh_world).
  vm_compute; reflexivity.
Defined.

(** X12.  The datapoints a run returns and the calls it has made to the
    engine correspond one to one and in order: the i-th datapoint holds
    the engine's answer to the i-th call; and every datapoint's actual
    value is 0 or 1. *)
Theorem datapoints_answer_calls {lib : MirtEngineModule}
    (params : Params) (indexer : FieldIndexer.t) (test_data : list string)
    (evaluation_item_index : option Z) (w : World)
    (pts : list Datapoint) (w' : World) :
  load_and_simulate_assessment params indexer test_data
    evaluation_item_index w = Ok (pts, w') ->
  exists calls,
    engine_calls w' = engine_calls w ++ calls
    /\ Forall2 answers pts calls
    /\ Forall (fun pt => actual pt = 0%Z \/ actual pt = 1%Z) pts.
Proof.
  rewrite load_and_simulate_assessment_eq.
  destruct (loop params indexer evaluation_item_index test_data
              (initial_frame params) (opened w))
    as [[f w1]|e] eqn:Hl; [|discriminate].
  intros [= <- <-].
  destruct (loop_points_and_calls params indexer evaluation_item_index
              test_data (initial_frame params) (opened w) f w1 Hl)
    as (more & calls & Hd & Hc & Ha & Hz).
  simpl in Hd, Hc; rewrite Hd.
  exists calls; auto.
Qed.

Lemma datapoints_answer_calls_witness :
  exists calls,
    calls = [{| call_model := counting_model;
                call_history := [ItemResponse.new true "e1" "5"];
                call_exercise := "e2" |}]
    /\ Forall2 answers [@Build_Datapoint counting_engine 0 1] calls.
Proof.
  destruct (datapoints_answer_calls (lib := counting_engine) counting_params
              scenario_indexer scenario_A (Some 4%Z) fresh_world
              [@Build_Datapoint counting_engine 0 1]
              (called fresh_world
                 [{| call_model := counting_model;
                     call_history := [ItemResponse.new true "e1" "5"];
                     call_exercise := "e2" |}]) eq_refl)
    as (calls & Hc & Ha & _).
  exists calls; split; [symmetry; exact Hc|exact Ha].
Defined.

Section FallbackRunFacts.
Context {lib : MirtEngineModule}.
Variables (params : Params) (indexer : FieldIndexer.t).

(** Without an evaluation item index a turn of the loop takes one draw
    for each point it adds (one of each at a boundary, none otherwise). *)
Lemma loop_body_None_draws f line w f' w' :
  frame_ok params f -> evaluation_indexes f = [] ->
  loop_body params indexer None f line w = Ok (f', w') ->
  exists more,
    datapoints f' = datapoints f ++ more
    /\ forall k, random_tape w' k = random_tape w (List.length more + k).
Proof.
  intros [Hv _] HE Hb.
  destruct (loop_body_Ok params indexer None f line w f' w' Hb)
    as (p & f1 & _ & -> & [(_ & -> & ->)|[(_ & _ & -> & ->)
                                         |(_ & _ & pts & Hw & ->)]]).
  - exists []; rewrite app_nil_r; split; reflexivity.
  - exists []; simpl; rewrite app_nil_r; split; reflexivity.
  - exists pts; split; [reflexivity|].
    rewrite HE in Hv, Hw.
    destruct (write_roc_datapoint_valid (history f) [] (model f) w Hv)
      as [(_ & _ & Hraise)|(held & w1 & _ & _ & Hfall & _ & Hr & Hw')].
    + rewrite Hraise in Hw; discriminate.
    + pose proof (items_at_length (history f) held Hr) as Hlen.
      remember (items_at (history f) held) as its eqn:Hits.
      destruct (Hfall eq_refl) as [-> ->].
      rewrite Hw' in Hw; injection Hw as <- <-.
      intros k; rewrite length_map, Hlen; reflexivity.
Qed.

Lemma loop_None_draws test_data : forall f w f' w',
  frame_ok params f -> evaluation_indexes f = [] ->
  loop params indexer None test_data f w = Ok (f', w') ->
  exists more,
    datapoints f' = datapoints f ++ more
    /\ forall k, random_tape w' k = random_tape w (List.length more + k).
Proof.
  induction test_data as [|line rest IH]; intros f w f' w' Hok HE; simpl.
  - unfold ret; intros [= <- <-].
    exists []; rewrite app_nil_r; split; reflexivity.
  - unfold bind.
    destruct (loop_body params indexer None f line w)
      as [[f1 w1]|e] eqn:Hb; [|discriminate].
    intros Hrest.
    destruct (loop_body_None_draws f line w f1 w1 Hok HE Hb)
      as (more1 & Hd1 & Ht1).
    destruct (loop_body_invariant params indexer None f line w f1 w1 Hok Hb)
      as (Hok1 & _).
    pose proof (loop_body_None params indexer f line w f1 w1 HE Hb) as HE1.
    destruct (IH f1 w1 f' w' Hok1 HE1 Hrest) as (more2 & Hd2 & Ht2).
    exists (more1 ++ more2); split.
    + rewrite Hd2, Hd1, app_assoc; reflexivity.
    + intros k; rewrite Ht2, Ht1, length_app; f_equal; lia.
Qed.

End FallbackRunFacts.

(** X13.  Without an evaluation item index a run takes exactly one draw
    from the random source for each datapoint it returns: the source
    is left where it was, advanced by the number of datapoints. *)
Theorem one_draw_per_datapoint {lib : MirtEngineModule}
    (params : Params) (indexer : FieldIndexer.t) (test_data : list string)
    (w : World) (pts : list Datapoint) (w' : World) :
  load_and_simulate_assessment params indexer test_data None w
  = Ok (pts, w') ->
  forall k, random_tape w' k = random_tape w (List.length pts + k).
Proof.
  rewrite load_and_simulate_assessment_eq.
  destruct (loop params indexer None test_data (initial_frame params)
              (opened w)) as [[f w1]|e] eqn:Hl; [|discriminate].
  intros [= <- <-].
  destruct (loop_None_draws params indexer test_data (initial_frame params)
              (opened w) f w1 (frame_ok_initial params) eq_refl Hl)
    as (more & Hd & Ht).
  simpl in Hd; rewrite Hd; exact Ht.
Qed.

Lemma one_draw_per_datapoint_witness :
  exists pts w',
    load_and_simulate_assessment (lib := counting_engine) counting_params
      scenario_indexer scenario_A None fresh_world = Ok (pts, w')
    /\ List.length pts = 1
    /\ forall k,
         random_tape w' k
         = random_tape (fresh_world (lib := counting_engine))
             (List.length pts + k).
Proof.
  eexists; eexists; split; [vm_compute; reflexivity|].
  split; [reflexivity|].
  apply (one_draw_per_datapoint (lib := counting_engine) counting_params
           scenario_indexer scenario_A fresh_world).
  vm_compute; reflexivity.
Defined.

Section NoUserFacts.
Context {lib : MirtEngineModule}.
Variables (params : Params) (indexer : FieldIndexer.t)
  (evaluation_item_index : option Z).

Lemma truthy_false (s : string) : truthy s = false -> s = EmptyString.
Proof. destruct s; [reflexivity|discriminate]. Qed.

(** Two frames of the empty user with the same datapoints take the
    same turn: neither is finalized. *)
Lemma loop_body_no_user f g line w :
  user f = EmptyString -> user g = EmptyString ->
  datapoints f = datapoints g ->
  (loop_body params indexer evaluation_item_index f line w
   = Raise IndexError
   /\ loop_body params indexer evaluation_item_index g line w
      = Raise IndexError)
  \/ exists f1 g1,
       loop_body params indexer evaluation_item_index f line w = Ok (f1, w)
       /\ loop_body params indexer evaluation_item_index g line w
          = Ok (g1, w)
       /\ (f1 = g1
           \/ (user f1 = EmptyString /\ user g1 = EmptyString
               /\ datapoints f1 = datapoints g1)).
Proof.
  intros Hf Hg Hd.
  unfold loop_body, bind at 1 4, lift.
  destruct (parse_line line indexer evaluation_item_index) as [p|[]];
    [|left; split; reflexivity].
  right; unfold bind, ret; rewrite Hf, Hg, Hd.
  destruct (p_user p) as [|c u] eqn:Hpu; simpl.
  - eexists; eexists.
    split; [reflexivity|]; split; [reflexivity|].
    right; simpl; auto.
  - eexists; eexists.
    split; [reflexivity|]; split; [reflexivity|].
    left; reflexivity.
Qed.

Lemma loop_no_user test_data : forall f g w,
  f = g
  \/ (user f = EmptyString /\ user g = EmptyString
      /\ datapoints f = datapoints g) ->
  match loop params indexer evaluation_item_index test_data f w,
        loop params indexer evaluation_item_index test_data g w with
  | Ok (f', w1), Ok (g', w2) => datapoints f' = datapoints g' /\ w1 = w2
  | Raise _, Raise _ => True
  | _, _ => False
  end.
Proof.
  induction test_data as [|line rest IH]; intros f g w [->|(Hf & Hg & Hd)].
  - destruct (loop _ _ _ _ g w) as [[g' w']|e]; auto.
  - simpl; unfold ret; auto.
  - destruct (loop _ _ _ _ g w) as [[g' w']|e]; auto.
  - simpl; unfold bind.
    destruct (loop_body_no_user f g line w Hf Hg Hd)
      as [[-> ->]|(f1 & g1 & -> & -> & Hrel)]; [exact I|].
    apply IH; exact Hrel.
Qed.

End NoUserFacts.

(** X14.  Records that come before the first record with a user id, all
    with an empty user id, are without effect: the run on the whole
    input gives what the run on the input without them gives. *)
Theorem leading_records_without_user_are_ignored {lib : MirtEngineModule}
    (params : Params) (indexer : FieldIndexer.t) (l1 rest : list string)
    (evaluation_item_index : option Z) (w : World) :
  Forall (fun line =>
            exists p, parse_line line indexer evaluation_item_index = Ok p
                      /\ p_user p = EmptyString) l1 ->
  load_and_simulate_assessment params indexer (l1 ++ rest)
    evaluation_item_index w
  = load_and_simulate_assessment params indexer rest
      evaluation_item_index w.
Proof.
  intros Hall.
  rewrite !load_and_simulate_assessment_eq, loop_app; unfold bind.
  destruct (loop_single_user params indexer evaluation_item_index
              EmptyString l1 (initial_frame params) (opened w) Hall
              (or_introl eq_refl)) as (f1 & Hl1 & Hd1 & Hu1).
  rewrite Hl1.
  assert (Hu : user f1 = EmptyString)
    by (destruct Hu1 as [Hu|Hu]; [exact Hu|apply truthy_false; exact Hu]).
  pose proof (loop_no_user params indexer evaluation_item_index rest
                f1 (initial_frame params) (opened w)
                (or_intror (conj Hu (conj eq_refl Hd1)))) as Hsim.
  destruct (loop params indexer evaluation_item_index rest f1 (opened w))
    as [[f' w1]|[]];
    destruct (loop params indexer evaluation_item_index rest
                (initial_frame params) (opened w)) as [[g' w2]|[]];
    try contradiction; [|reflexivity].
  destruct Hsim as [-> ->]; reflexivity.
Qed.

Lemma leading_records_without_user_are_ignored_witness :
  load_and_simulate_assessment (lib := counting_engine) counting_params
    scenario_indexer
    ([",e9,1,true,true"; ",e8,2,false,false"]%string ++ scenario_A)%list
    (Some 4%Z) fresh_world
  = load_and_simulate_assessment (lib := counting_engine) counting_params
      scenario_indexer scenario_A (Some 4%Z) fresh_world.
Proof.
  apply (leading_records_without_user_are_ignored (lib := counting_engine)
           counting_params scenario_indexer
           [",e9,1,true,true"; ",e8,2,false,false"]%string scenario_A
           (Some 4%Z) fresh_world).
  repeat constructor; eexists; split; reflexivity.
Defined.

(** ** Counting records and points *)

Section CountFacts.
Context {lib : MirtEngineModule}.

Lemma StronglySorted_gt_NoDup (D : list nat) :
  StronglySorted gt D -> NoDup D.
Proof.
  induction 1 as [|a l Hs IH Ha]; constructor; [|exact IH].
  intros Hin; rewrite Forall_forall in Ha.
  specialize (Ha a Hin); lia.
Qed.

(** Distinct positions of a list are no more than its records. *)
Lemma descending_indexes_length (D : list nat) (n : nat) :
  StronglySorted gt D -> Forall (fun i => i < n) D -> List.length D <= n.
Proof.
  intros Hs Hr.
  rewrite <- (length_seq n 0).
  apply NoDup_incl_length; [apply StronglySorted_gt_NoDup; exact Hs|].
  rewrite Forall_forall in Hr.
  intros i Hi; apply in_seq; specialize (Hr i Hi); lia.
Qed.

Lemma write_roc_datapoint_count h E model w pts w' :
  indexes_valid h E ->
  write_roc_datapoint h E model w = Ok (pts, w') ->
  List.length pts <= List.length h.
Proof.
  intros Hv Hw.
  destruct (write_roc_datapoint_valid h E model w Hv)
    as [(_ & _ & Hraise)|(held & w1 & _ & _ & _ & Hs & Hr & Hw')].
  - rewrite Hraise in Hw; discriminate.
  - pose proof (items_at_length h held Hr) as Hlen.
    pose proof (descending_indexes_length held _ Hs Hr) as Hle.
    remember (items_at h held) as its eqn:Hits.
    rewrite Hw' in Hw; injection Hw as <- <-.
    rewrite length_map; lia.
Qed.

Lemma loop_count params indexer evaluation_item_index test_data :
  forall f w f' w',
    frame_ok params f ->
    loop params indexer evaluation_item_index test_data f w = Ok (f', w') ->
    List.length (datapoints f') + List.length (history f')
    <= List.length (datapoints f) + List.length (history f)
       + List.length test_data.
Proof.
  induction test_data as [|line rest IH]; intros f w f' w' Hok; simpl.
  - unfold ret; intros [= <- <-]; lia.
  - unfold bind.
    destruct (loop_body params indexer evaluation_item_index f line w)
      as [[f1 w1]|e] eqn:Hb; [|discriminate].
    intros Hrest.
    destruct (loop_body_invariant params indexer evaluation_item_index
                f line w f1 w1 Hok Hb) as (Hok1 & _).
    specialize (IH f1 w1 f' w' Hok1 Hrest).
    assert (H1 : List.length (datapoints f1) + List.length (history f1)
                 <= S (List.length (datapoints f) + List.length (history f))).
    { destruct (loop_body_Ok params indexer evaluation_item_index
                  f line w f1 w1 Hb)
        as (p & f0 & _ & -> & [(_ & -> & ->)|[(_ & _ & -> & ->)
                                             |(_ & _ & pts & Hw & ->)]]);
        unfold appended; simpl; rewrite ?length_app; simpl; try lia.
      destruct Hok as [Hv _].
      pose proof (write_roc_datapoint_count _ _ _ _ _ _ Hv Hw); lia. }
    lia.
Qed.

Lemma pop_Permutation (A : Type) (h : list A) : forall d x h',
  pop h d = Ok (x, h') -> Permutation h (x :: h').
Proof.
  induction h as [|y t IH]; intros d x h' Hp; simpl in Hp; [discriminate|].
  destruct d as [|d].
  - injection Hp as <- <-; reflexivity.
  - destruct (pop t d) as [[z t']|e] eqn:Ht; [|discriminate].
    injection Hp as <- <-.
    rewrite (IH d z t' Ht); apply perm_swap.
Qed.

Lemma pop_evaluation_items_Permutation (A : Type) (D : list nat) :
  forall (h acc items h' : list A),
    pop_evaluation_items h D acc = Ok (items, h') ->
    Permutation (acc ++ h) (items ++ h').
Proof.
  induction D as [|d D IH]; intros h acc items h'; simpl.
  - intros [= <- <-]; reflexivity.
  - destruct (pop h d) as [[x t]|e] eqn:Hp; [|discriminate].
    intros Hrest.
    rewrite <- (IH t (acc ++ [x]) items h' Hrest).
    rewrite (pop_Permutation A h d x t Hp), <- app_assoc; reflexivity.
Qed.

End CountFacts.

(** X15.  A run returns fewer datapoints than it has read lines: at most
    one per record of a finalized history, and none for the records of
    the history that is open when the input ends. *)
Theorem fewer_datapoints_than_lines {lib : MirtEngineModule}
    (params : Params) (indexer : FieldIndexer.t) (test_data : list string)
    (evaluation_item_index : option Z) (w : World)
    (pts : list Datapoint) (w' : World) :
  load_and_simulate_assessment params indexer test_data
    evaluation_item_index w = Ok (pts, w') ->
  List.length pts <= List.length test_data - 1.
Proof.
  rewrite load_and_simulate_assessment_eq.
  destruct (loop params indexer evaluation_item_index test_data
              (initial_frame params) (opened w))
    as [[f w1]|e] eqn:Hl; [|discriminate].
  intros [= <- <-].
  pose proof (loop_count params indexer evaluation_item_index test_data
                (initial_frame params) (opened w) f w1
                (frame_ok_initial params) Hl) as Hcount.
  simpl in Hcount.
  destruct test_data as [|line rest]; [simpl in *; lia|].
  pose proof (loop_history params indexer evaluation_item_index rest line
                (initial_frame params) (opened w) f w1 Hl) as Hne.
  destruct (history f); [congruence|simpl in *; lia].
Qed.

Lemma fewer_datapoints_than_lines_witness :
  List.length [@Build_Datapoint counting_engine 0 1]
  <= List.length scenario_A - 1.
Proof.
  apply (fewer_datapoints_than_lines (lib := counting_engine)
           counting_params scenario_indexer scenario_A (Some 4%Z)
           fresh_world [@Build_Datapoint counting_engine 0 1]
           (called fresh_world
              [{| call_model := counting_model;
                  call_history := [ItemResponse.new true "e1" "5"];
                  call_exercise := "e2" |}])).
  reflexivity.
Defined.

(** X16.  Finalization loses and repeats no record, whatever the indexes:
    when write_roc_datapoint returns, the history splits (as a
    multiset) into the held-out records, one per returned point and in
    the order of the points, and the records the engine is given. *)
Theorem finalization_splits_history {lib : MirtEngineModule}
    (h : list ItemResponse.data) (E : list nat) (model : MIRTEngine)
    (w : World) (pts : list Datapoint) (w' : World) :
  write_roc_datapoint h E model w = Ok (pts, w') ->
  exists items h',
    Permutation h (items ++ h')
    /\ pts = map (point_of model h') items
    /\ engine_calls w' = engine_calls w ++ map (call_of model h') items.
Proof.
  intros Hw.
  destruct (write_roc_datapoint_Ok h E model w pts w' Hw)
    as (held & w1 & items & h' & _ & Hw1 & Hpop & -> & ->).
  exists items, h'; repeat split.
  - exact (pop_evaluation_items_Permutation _ held h [] items h' Hpop).
  - destruct Hw1 as [->| ->]; reflexivity.
Qed.

Lemma finalization_splits_history_witness :
  exists items h',
    Permutation
      [ItemResponse.new true "e1" "5"; ItemResponse.new false "e2" "3";
       ItemResponse.new true "e3" "1"] (items ++ h')
    /\ [@Build_Datapoint counting_engine 1 1;
        @Build_Datapoint counting_engine 0 1]
       = map (point_of counting_model h') items
    /\ engine_calls
         (called fresh_world
            [{| call_model := counting_model;
                call_history := [ItemResponse.new true "e3" "1"];
                call_exercise := "e1" |};
             {| call_model := counting_model;
                call_history := [ItemResponse.new true "e3" "1"];
                call_exercise := "e2" |}])
       = engine_calls fresh_world ++ map (call_of counting_model h') items.
Proof.
  apply (finalization_splits_history (lib := counting_engine)
           [ItemResponse.new true "e1" "5"; ItemResponse.new false "e2" "3";
            ItemResponse.new true "e3" "1"]
           [0; 0] counting_model fresh_world).
  reflexivity.
Defined.
